(** * re-scraper: the scrape / normalize / reconcile pipeline

    A shallow embedding of the Python sources
      - [src/scrapers/cian.py]   (module [Cian])
      - [src/scrapers/avito.py]  (module [Avito])
      - [src/scheduler/jobs.py]  (module [Jobs])
      - [src/db/models.py]       (modules [Listing], [PriceSnapshot])
      - [src/api/main.py]        (module [Api])
    followed by the properties of the pipeline.

    Conventions.
      - A Python [str] is a [string] holding its UTF-8 bytes; substring
        tests and equality on the bytes agree with those on code points.
      - A Python [int] is a [Z]; a Python [float] is a primitive binary64
        [float], so divisions and comparisons are the ones Python computes.
      - [None] is [None]; a dict key that is absent or popped reads as
        [None] through [.get], so a dict with a fixed key set is a record
        of options.
      - Raising code returns [Err e]. *)

From Stdlib Require Import ZArith Ascii String.
From Stdlib Require Import Floats.PrimFloat Floats.SpecFloat Floats.FloatOps.
From stdpp Require Import base decidable option list gmap strings pretty.

Open Scope string_scope.
Open Scope list_scope.
Open Scope Z_scope.

(** ** Python values *)

(** Exceptions the modelled code can raise. *)
Inductive exn :=
  | FetchError (msg : string)
  | TransportError            (* any httpx exception raised by [client.get] *)
  | OverflowError             (* int too large to convert to float *)
  | TypeError                 (* unknown keyword passed to [Listing(...)] *)
  | MultipleResultsFound.     (* [scalar_one_or_none] on two or more rows *)

Inductive result (A : Type) :=
  | Ok (a : A)
  | Err (e : exn).
Arguments Ok {A} a.
Arguments Err {A} e.

Module PyFloat.

(** [float(n)] for a Python int: the nearest binary64, ties to even;
    [OverflowError] when the int is too large for a finite float. *)
Definition round_int (n : Z) : float :=
  SF2Prim (binary_normalize prec emax n 0 false).

Definition of_int (n : Z) : result float :=
  let f := round_int n in
  if PrimFloat.is_infinity f then Err OverflowError else Ok f.

(** Truth value of a float: false exactly on [0.0] and [-0.0]. *)
Definition truthy (f : float) : bool := negb (PrimFloat.eqb f 0%float).

(** [a >= b] on floats (false when either side is NaN). *)
Definition ge (a b : float) : bool := PrimFloat.leb b a.

(** [a > b]. *)
Definition gt (a b : float) : bool := PrimFloat.ltb b a.

(** [n / a] for an int [n] and a non-zero float [a]: [n] is converted
    first, then the floats are divided. *)
Definition int_div (n : Z) (a : float) : result float :=
  match of_int n with
  | Ok f => Ok (PrimFloat.div f a)
  | Err e => Err e
  end.

End PyFloat.

Module PyStr.

(** [needle in hay]. *)
Fixpoint contains (needle hay : string) : bool :=
  String.prefix needle hay
  || match hay with
     | EmptyString => false
     | String _ rest => contains needle rest
     end.

Definition between (lo n hi : N) : bool := (lo <=? n)%N && (n <=? hi)%N.

(** [str.lower()] on the UTF-8 bytes, for the basic Latin letters and
    the Cyrillic block U+0400..U+042F (which holds the Russian capital
    letters); every other byte is left as it is. *)
Fixpoint lower (s : string) : string :=
  match s with
  | EmptyString => EmptyString
  | String c rest =>
      let n := N_of_ascii c in
      if between 65 n 90 then String (ascii_of_N (n + 32)) (lower rest)
      else if (n =? 208)%N then
        match rest with
        | String d rest' =>
            let m := N_of_ascii d in
            if between 144 m 159
            then String c (String (ascii_of_N (m + 32)) (lower rest'))
            else if between 160 m 175
            then String (ascii_of_N 209) (String (ascii_of_N (m - 32)) (lower rest'))
            else if between 128 m 143
            then String (ascii_of_N 209) (String (ascii_of_N (m + 16)) (lower rest'))
            else String c (String d (lower rest'))
        | EmptyString => String c EmptyString
        end
      else String c (lower rest)
  end.

(** [len(s)]: the number of code points, i.e. of bytes that are not
    UTF-8 continuation bytes. *)
Fixpoint len (s : string) : Z :=
  match s with
  | EmptyString => 0
  | String c rest =>
      (if between 128 (N_of_ascii c) 191 then 0 else 1) + len rest
  end.

(** [any(m in text for m in markers)]. *)
Definition any_in (markers : list string) (text : string) : bool :=
  existsb (fun m => contains m text) markers.

(** Truth value of an optional string: false on [None] and on [""]. *)
Definition truthy (s : option string) : bool :=
  match s with
  | Some (String _ _) => true
  | _ => false
  end.

(** [s or ""]. *)
Definition or_empty (s : option string) : string :=
  match s with
  | Some t => t
  | None => ""
  end.

(** [" ".join(parts)]. *)
Fixpoint join_space (parts : list string) : string :=
  match parts with
  | [] => ""
  | [p] => p
  | p :: rest => (p ++ " " ++ join_space rest)%string
  end.

End PyStr.

(** Truth value of an optional int: false on [None] and on [0]. *)
Definition int_truthy (n : option Z) : bool :=
  match n with
  | Some v => negb (v =? 0)
  | None => false
  end.

(** Truth value of an optional float: false on [None], [0.0], [-0.0]. *)
Definition float_truthy (a : option float) : bool :=
  match a with
  | Some f => PyFloat.truthy f
  | None => false
  end.

(** ** Candidates

    The dict built by the extractors ([cian.py] lines 242-256, [avito.py]
    lines 147-161) and handed to [upsert_listing] as [payload].  The two
    provisional tags are [None] once popped. *)
Module Item.
Record t := mk {
  source : string;
  external_id : option string;
  title : option string;
  address : option string;
  rooms : option Z;
  area_m2 : option float;
  floor : option Z;
  floors_total : option Z;
  price_rub : option Z;
  price_per_m2 : option float;
  url : option string;
  _is_room : option bool;
  _rent_period : option string;
}.

(** [it.pop("_is_room", None); it.pop("_rent_period", None)]. *)
Definition pop_tags (it : t) : t :=
  mk (source it) (external_id it) (title it) (address it) (rooms it)
     (area_m2 it) (floor it) (floors_total it) (price_rub it)
     (price_per_m2 it) (url it) None None.

(** The dedup key [(item.get("external_id"), item.get("url"))]. *)
Definition key (it : t) : option string * option string :=
  (external_id it, url it).
End Item.

(** ** Settings ([src/core/config.py]) and the environment read by
    [fetch_avito]. *)
Record Settings := {
  cian_deal_type : string;
  cian_min_area_m2 : float;
  cian_max_price_rub : option Z;
  cian_rent_long_only : bool;
  cian_exclude_rooms : bool;
  cian_max_pages : Z;
  cian_rate_limit_ms : Z;
  (* os.getenv("AVITO_SEARCH_URL"), int(os.getenv("AVITO_MAX_PAGES", "1")),
     int(os.getenv("AVITO_RATE_LIMIT_MS", "1500")) *)
  AVITO_SEARCH_URL : option string;
  AVITO_MAX_PAGES : Z;
  AVITO_RATE_LIMIT_MS : Z;
}.

(** ** The dedup loop shared by both scrapers

    [seen = set(); deduped = []
     for item in out:
         key = (item.get("external_id"), item.get("url"))
         if key in seen: continue
         seen.add(key); deduped.append(item)] *)
Definition dedup_step (st : gset (option string * option string) * list Item.t)
    (item : Item.t) : gset (option string * option string) * list Item.t :=
  let '(seen, deduped) := st in
  if decide (Item.key item ∈ seen) then (seen, deduped)
  else ({[Item.key item]} ∪ seen, deduped ++ [item]).

Definition dedup_loop (out : list Item.t) :
    gset (option string * option string) * list Item.t :=
  foldl dedup_step (∅, []) out.

Definition dedup (out : list Item.t) : list Item.t := (dedup_loop out).2.

(** What the loop appends when it goes through [out] with the keys [seen]
    already met. *)
Fixpoint first_occurrences (seen : gset (option string * option string))
    (out : list Item.t) : list Item.t :=
  match out with
  | [] => []
  | item :: rest =>
      if decide (Item.key item ∈ seen) then first_occurrences seen rest
      else item :: first_occurrences ({[Item.key item]} ∪ seen) rest
  end.

(** ** What the libraries return

    The HTML, JSON and regular-expression libraries are outside the
    repository.  Their results on a given text are taken as given: one
    field per call site of [selectolax], [json] and [re] in the two
    scrapers. *)

(** The texts the CSS selectors of [cian._parse_cards] find in one card. *)
Record RawCard := {
  rc_title : option string;     (* title_node.text(strip=True), or None *)
  rc_href : option string;      (* link.attributes.get("href"), or None *)
  rc_address : option string;   (* addr_node.text(strip=True), or None *)
  rc_summary : string;          (* summary_txt *)
  rc_price_text : string;       (* price_node.text(strip=True), or "" *)
  rc_text : string;             (* card.text(strip=True) *)
}.

(** One entry of a JSON-LD [offers] list, with its string fields. *)
Record Offer := {
  off_url : option string;      (* off.get("url") *)
  off_name : option string;     (* off.get("name") *)
  off_price : option string;    (* off.get("price") *)
}.

Record Lib := {
  (* the card nodes of a page, after the node dedup of lines 164-171 *)
  cian_cards : string -> list RawCard;
  (* group 1 of the search for a final run of digits after a slash in the
     url, line 197 *)
  cian_re_external_id : string -> option string;
  (* _parse_float of the number in front of the square-metre unit, line 210 *)
  cian_re_area : string -> option float;
  (* the two ints of the first floor/floors pattern of summary_txt, line 212 *)
  cian_re_floor : string -> option (Z * Z);
  (* the room pattern of lines 218-220: 0 for a studio, else the int *)
  cian_re_rooms : string -> option Z;
  (* whether the stand-alone room word of line 56 (avito: line 100) occurs *)
  re_room_word : string -> bool;
  (* _parse_int: the digits of a non-empty text as an int *)
  _parse_int : option string -> option Z;
  (* the dict entries of the "offers" lists of the Product blocks of a page *)
  avito_offers : string -> list Offer;
  (* _extract_external_id *)
  _extract_external_id : option string -> option string;
  (* _parse_float_m2 *)
  _parse_float_m2 : option string -> option float;
  (* the two ints of the floor pattern of line 139 *)
  avito_re_floor : string -> option (Z * Z);
  (* the studio test and the room pattern of lines 142-145 *)
  avito_re_rooms : string -> option Z;
}.

(** ** The network and the clock

    [client.get] and [asyncio.sleep] are the effects of the scrapers.  The
    network is an oracle: the reply to the [n]-th request of the run, for
    the url asked.  A world counts the requests made and records what
    happened, oldest event first. *)
Inductive reply :=
  | Response (status_code : Z) (text : string)
  | Failure.                       (* [client.get] raises (timeout, DNS, ...) *)

Inductive event :=
  | EvGet (url : string)
  | EvSleep (seconds : float).

Record World := { requests : nat; trace : list event }.

Definition Net := nat -> string -> reply.

Definition IO (A : Type) : Type := World -> result A * World.

Definition ret {A} (a : A) : IO A := fun w => (Ok a, w).

Definition raise {A} (e : exn) : IO A := fun w => (Err e, w).

Definition bind {A B} (m : IO A) (k : A -> IO B) : IO B :=
  fun w =>
    match m w with
    | (Ok a, w') => k a w'
    | (Err e, w') => (Err e, w')
    end.

Notation "'let*' x ':=' m 'in' k" := (bind m (fun x => k))
  (at level 10, x name, m at level 100, k at level 200, only parsing).

(** [await client.get(url)]. *)
Definition http_get (net : Net) (url : string) : World -> reply * World :=
  fun w =>
    (net (requests w) url,
     {| requests := S (requests w); trace := trace w ++ [EvGet url] |}).

(** [await asyncio.sleep(seconds)], also the wait between two attempts. *)
Definition sleep (seconds : float) : IO unit :=
  fun w =>
    (Ok tt, {| requests := requests w; trace := trace w ++ [EvSleep seconds] |}).

(** ** The [tenacity] decorator of both [_fetch_page]s

    [@retry(reraise=True, stop=stop_after_attempt(n),
            wait=wait_exponential(multiplier, min, max),
            retry=retry_if_exception_type(FetchError))]. *)
Module Tenacity.

Definition fmin (a b : float) : float := if PrimFloat.ltb b a then b else a.
Definition fmax (a b : float) : float := if PrimFloat.ltb a b then b else a.

(** The wait after failed attempt [attempt_number] (counted from 1):
    [max(max(0, min), min(multiplier * 2 ** (attempt_number - 1), max))]. *)
Definition wait_exponential (multiplier min max : float)
    (attempt_number : nat) : float :=
  let exp := PyFloat.round_int (2 ^ (Z.of_nat attempt_number - 1)) in
  let result := PrimFloat.mul multiplier exp in
  fmax (fmax 0%float min) (fmin result max).

(** Attempt [attempt_number] and the [remaining] ones after it.  Only a
    [FetchError] is retried; the last one is raised again. *)
Fixpoint retrying {A} (wait : nat -> float) (f : IO A)
    (remaining attempt_number : nat) : IO A :=
  fun w =>
    match f w with
    | (Err (FetchError msg), w') =>
        match remaining with
        | O => (Err (FetchError msg), w')
        | S r =>
            retrying wait f r (S attempt_number)
                     (snd (sleep (wait attempt_number) w'))
        end
    | other => other
    end.

(** [stop_after_attempt(n)]: at most [n] attempts. *)
Definition retry {A} (stop_after_attempt : nat) (wait : nat -> float)
    (f : IO A) : IO A :=
  retrying wait f (Nat.pred stop_after_attempt) 1%nat.

End Tenacity.

(** ** [src/scrapers/cian.py] *)
Module Cian.

Definition ANTI_BOT_MARKERS : list string :=
  ["вы робот"; "подтвердите, что вы не робот"; "captcha";
   "подозрительная активность"; "Too Many Requests";
   "Доступ временно ограничен"].

Definition daily_markers : list string :=
  ["посуточ"; "в сутки"; "за сутки"; "/сут"; "сутки"; "в день"; "/день";
   "за день"].

Definition monthly_markers : list string :=
  ["в месяц"; "в мес"; "/мес"; "мес."; "месяц"].

(** Lines 30-39. *)
Definition _detect_rent_period (text : string) : string :=
  let low := PyStr.lower text in
  if PyStr.any_in daily_markers low then "daily"
  else if PyStr.any_in monthly_markers low then "monthly"
  else "unknown".

(** Lines 78-81: [price / area] when both are truthy and [area > 0]. *)
Definition _price_per_m2 (price : option Z) (area : option float) :
    result (option float) :=
  match price, area with
  | Some p, Some a =>
      if negb (p =? 0) && PyFloat.truthy a && PyFloat.gt a 0%float
      then match PyFloat.int_div p a with
           | Ok f => Ok (Some f)
           | Err e => Err e
           end
      else Ok None
  | _, _ => Ok None
  end.

Section Extract.
Variable lib : Lib.

(** Lines 41-65. *)
Definition _is_room_listing (title summary_txt : option string) : bool :=
  let t := PyStr.lower
             (PyStr.or_empty title ++ " " ++ PyStr.or_empty summary_txt)%string in
  if PyStr.contains "квартира" t || PyStr.contains "студия" t then false
  else if re_room_word lib t then true
  else if PyStr.contains "комната в" t || PyStr.contains "комн. в" t
          || PyStr.contains "в подселени" t then true
  else if PyStr.contains "сдаётся комната" t
          || PyStr.contains "сдается комната" t then true
  else false.

(** The url of a card, lines 190-192. *)
Definition card_url (c : RawCard) : option string :=
  match rc_href c with
  | Some h =>
      if PyStr.truthy (Some h) && String.prefix "//" h
      then Some ("https:" ++ h)%string
      else Some h
  | None => None
  end.

(** The body of the [try] of lines 174-256 for one card: the dict that
    is appended, or the exception that makes the card skipped. *)
Definition card_item (c : RawCard) : result Item.t :=
  let title := rc_title c in
  let url := card_url c in
  let external_id :=
    if PyStr.truthy url then cian_re_external_id lib (PyStr.or_empty url)
    else None in
  let summary_txt := rc_summary c in
  let area_m2 := cian_re_area lib summary_txt in
  let fl := cian_re_floor lib summary_txt in
  let rooms :=
    cian_re_rooms lib (PyStr.or_empty title ++ " " ++ summary_txt)%string in
  let price_text := rc_price_text c in
  let price_rub :=
    if PyStr.truthy (Some price_text) then _parse_int lib (Some price_text)
    else None in
  let context_txt :=
    PyStr.join_space
      [price_text; PyStr.or_empty title; summary_txt; rc_text c] in
  let rent_period := _detect_rent_period context_txt in
  let is_room := _is_room_listing title (Some summary_txt) in
  match _price_per_m2 price_rub area_m2 with
  | Err e => Err e
  | Ok ppm =>
      Ok (Item.mk "cian" external_id title (rc_address c) rooms area_m2
            (fst <$> fl) (snd <$> fl) price_rub ppm url
            (Some is_room) (Some rent_period))
  end.

(** [cards]: what the loop of lines 173-258 has appended; a card whose
    extraction raises is skipped. *)
Fixpoint collect_cards (cs : list RawCard) : list Item.t :=
  match cs with
  | [] => []
  | c :: rest =>
      match card_item c with
      | Ok it => it :: collect_cards rest
      | Err _ => collect_cards rest
      end
  end.

(** Lines 149-260; the last line keeps the cards with a truthy url. *)
Definition _parse_cards (html : string) : list Item.t :=
  filter (fun c => PyStr.truthy (Item.url c))
         (collect_cards (cian_cards lib html)).

End Extract.

(** *** The filters of [fetch_cian], lines 290-329 *)
Section Filters.
Variable settings : Settings.

(** Lines 300-304. *)
Definition long_rent_filter (deduped : list Item.t) : list Item.t :=
  if String.eqb (cian_deal_type settings) "rent"
     && cian_rent_long_only settings
  then filter (fun it => Item._rent_period it ≠ Some "daily") deduped
  else deduped.

(** Lines 306-309. *)
Definition pop_all (deduped : list Item.t) : list Item.t :=
  Item.pop_tags <$> deduped.

(** [not it.get("_is_room")]. *)
Definition not_is_room (it : Item.t) : bool :=
  match Item._is_room it with
  | Some true => false
  | _ => true
  end.

(** Lines 311-315. *)
Definition rooms_filter (deduped : list Item.t) : list Item.t :=
  if cian_exclude_rooms settings
  then filter (fun it => not_is_room it) deduped
  else deduped.

(** Lines 320-323. *)
Definition area_ok (item : Item.t) : bool :=
  match Item.area_m2 item with
  | Some a => PyFloat.ge a (cian_min_area_m2 settings)
  | None => false
  end.

Definition price_ok (item : Item.t) : bool :=
  match cian_max_price_rub settings with
  | Some mx =>
      match Item.price_rub item with
      | Some p => p <=? mx
      | None => false
      end
  | None => true
  end.

(** Lines 317-325. *)
Definition numeric_filter (deduped : list Item.t) : list Item.t :=
  filter (fun item => area_ok item && price_ok item) deduped.

(** Lines 290-329, from the collected [out] to the returned list. *)
Definition normalize (out : list Item.t) : list Item.t :=
  numeric_filter (rooms_filter (pop_all (long_rent_filter (dedup out)))).

End Filters.

(** *** Fetching, lines 120-147 and 263-287 *)
Section Fetch.
Variable lib : Lib.
Variable settings : Settings.
Variable net : Net.
(** [_build_search_url], lines 93-116: the url of page [p]. *)
Variable _build_search_url : Z -> string.

(** Lines 138-147: what [_fetch_page] makes of the response [r].  (The
    optional dump of the page to [DEBUG_DIR] is not part of the model.) *)
Definition check_response (url : string) (r : reply) : result string :=
  match r with
  | Failure => Err TransportError
  | Response status_code text =>
      let low := PyStr.lower text in
      if PyStr.any_in ANTI_BOT_MARKERS low
      then Err (FetchError "Anti-bot/verification page detected")
      else if 400 <=? status_code
      then Err (FetchError ("HTTP " ++ pretty status_code ++ " for " ++ url)%string)
      else if PyStr.len text <? 5000
      then Err (FetchError "Suspiciously short HTML")
      else Ok text
  end.

(** One attempt of [_fetch_page], lines 125-147. *)
Definition fetch_attempt (url : string) : IO string :=
  fun w =>
    let '(r, w') := http_get net url w in
    (check_response url r, w').

Definition wait : nat -> float :=
  Tenacity.wait_exponential 0x1.999999999999ap-1%float (* 0.8 *)
                            1%float 10%float.

(** Lines 120-124. *)
Definition _fetch_page (url : string) : IO string :=
  Tenacity.retry 4 wait (fetch_attempt url).

(** The [for p in range(1, max_pages + 1)] loop of lines 270-287 over
    the pages still to fetch, with [out] as collected so far. *)
Fixpoint page_loop (rate_sleep : float) (pages : list Z)
    (out : list Item.t) : IO (list Item.t) :=
  match pages with
  | [] => ret out
  | p :: rest =>
      fun w =>
        let url := _build_search_url p in
        match _fetch_page url w with
        | (Err _, w') => (Ok out, w')            (* except Exception: break *)
        | (Ok html, w') =>
            let items := _parse_cards lib html in
            let out' := out ++ items in
            if Z.of_nat (length items) <? 5 then (Ok out', w')
            else (let* _ := sleep rate_sleep in
                  page_loop rate_sleep rest out') w'
        end
  end.

(** Lines 263-329. *)
Definition fetch_cian : IO (list Item.t) :=
  let max_pages := Z.max 1 (cian_max_pages settings) in
  match PyFloat.int_div (cian_rate_limit_ms settings) 1000%float with
  | Err e => raise e
  | Ok rate_sleep =>
      let* out := page_loop rate_sleep (seqZ 1 max_pages) [] in
      ret (normalize settings out)
  end.

End Fetch.

End Cian.

(** ** [src/scrapers/avito.py] *)
Module Avito.

Definition ANTI_BOT_MARKERS : list string :=
  ["подозрительная активность"; "вы робот"; "captcha"; "Доступ ограничен";
   "Похоже, вы слишком часто"; "Пожалуйста, подождите"].

Definition daily_markers : list string :=
  ["в сутки"; "за сутки"; "/сут"; "сутки"; "в день"; "/день"; "за день"].

Definition monthly_markers : list string :=
  ["в месяц"; "в мес"; "/мес"; "мес."; "месяц"].

(** Lines 86-92.  No line of [avito.py] calls it. *)
Definition _detect_rent_period (text : string) : string :=
  let low := PyStr.lower text in
  if PyStr.any_in daily_markers low then "daily"
  else if PyStr.any_in monthly_markers low then "monthly"
  else "unknown".

(** Lines 77-78. *)
Definition _price_per_m2 (price : option Z) (area : option float) :
    result (option float) :=
  match price, area with
  | Some p, Some a =>
      if negb (p =? 0) && PyFloat.truthy a && PyFloat.gt a 0%float
      then match PyFloat.int_div p a with
           | Ok f => Ok (Some f)
           | Err e => Err e
           end
      else Ok None
  | _, _ => Ok None
  end.

Section Extract.
Variable lib : Lib.

(** Lines 94-102. *)
Definition _is_room_listing (title context : option string) : bool :=
  let t := PyStr.lower
             (PyStr.or_empty title ++ " " ++ PyStr.or_empty context)%string in
  if PyStr.contains "квартира" t || PyStr.contains "студия" t then false
  else if PyStr.contains "комната в" t || PyStr.contains "комн. в" t
          || PyStr.contains "в подселени" t
          || PyStr.contains "подселение" t then true
  else if re_room_word lib t && negb (PyStr.contains "комнатн" t) then true
  else false.

(** Lines 127-161 for one offer: [None] when the offer is skipped
    ([continue]), else the appended dict or the exception raised. *)
Definition offer_item (off : Offer) : option (result Item.t) :=
  let url := off_url off in
  let title := off_name off in
  let price_rub := _parse_int lib (off_price off) in
  if negb (PyStr.truthy url) || negb (PyStr.truthy title) then None
  else
    let ctx := title in
    let area_m2 := _parse_float_m2 lib ctx in
    let fl := avito_re_floor lib (PyStr.or_empty ctx) in
    let rooms := avito_re_rooms lib (PyStr.or_empty ctx) in
    Some match _price_per_m2 price_rub area_m2 with
         | Err e => Err e
         | Ok ppm =>
             Ok (Item.mk "avito" (_extract_external_id lib url) title None
                   rooms area_m2 (fst <$> fl) (snd <$> fl) price_rub ppm
                   url (Some (_is_room_listing title ctx))
                   (Some "monthly"))
         end.

(** The [out] of lines 107-161: an offer that raises ends the parse. *)
Fixpoint collect_offers (offs : list Offer) : result (list Item.t) :=
  match offs with
  | [] => Ok []
  | off :: rest =>
      match offer_item off with
      | None => collect_offers rest
      | Some (Err e) => Err e
      | Some (Ok it) =>
          match collect_offers rest with
          | Ok out => Ok (it :: out)
          | Err e => Err e
          end
      end
  end.

(** Lines 104-163. *)
Definition _parse_from_jsonld (html : string) : result (list Item.t) :=
  match collect_offers (avito_offers lib html) with
  | Ok out => Ok (filter (fun c => PyStr.truthy (Item.url c)) out)
  | Err e => Err e
  end.

(** Lines 167-169. *)
Definition _parse_cards (html : string) : list Item.t := [].

End Extract.

(** *** The filters of [fetch_avito], lines 201-230 *)
Section Filters.
Variable settings : Settings.

(** Lines 208-211. *)
Definition long_rent_filter (deduped : list Item.t) : list Item.t :=
  if cian_rent_long_only settings
  then filter (fun it => Item._rent_period it ≠ Some "daily") deduped
  else deduped.

(** [not it.get("_is_room")]. *)
Definition not_is_room (it : Item.t) : bool :=
  match Item._is_room it with
  | Some true => false
  | _ => true
  end.

(** Lines 213-216. *)
Definition rooms_filter (deduped : list Item.t) : list Item.t :=
  if cian_exclude_rooms settings
  then filter (fun it => not_is_room it) deduped
  else deduped.

(** Line 220. *)
Definition area_ok (it : Item.t) : bool :=
  match Item.area_m2 it with
  | Some a => PyFloat.ge a (cian_min_area_m2 settings)
  | None => false
  end.

(** [settings.cian_max_price_rub or 10**12]. *)
Definition price_cap : Z :=
  if int_truthy (cian_max_price_rub settings)
  then default 0 (cian_max_price_rub settings)
  else 10 ^ 12.

(** Line 221. *)
Definition price_ok (it : Item.t) : bool :=
  match Item.price_rub it with
  | Some p => p <=? price_cap
  | None => false
  end.

(** Lines 218-223. *)
Definition numeric_filter (deduped : list Item.t) : list Item.t :=
  filter (fun it => area_ok it && price_ok it) deduped.

(** Lines 225-227. *)
Definition pop_all (filtered : list Item.t) : list Item.t :=
  Item.pop_tags <$> filtered.

(** Lines 201-230, from the collected [items] to the returned list. *)
Definition normalize (items : list Item.t) : list Item.t :=
  pop_all (numeric_filter (rooms_filter (long_rent_filter (dedup items)))).

End Filters.

(** *** Fetching, lines 37-61 and 172-199 *)
Section Fetch.
Variable lib : Lib.
Variable settings : Settings.
Variable net : Net.

(** Lines 55-61: only a status of 400 or more raises; the anti-bot and
    length heuristics only log. *)
Definition check_response (url : string) (r : reply) : result string :=
  match r with
  | Failure => Err TransportError
  | Response status_code text =>
      if 400 <=? status_code
      then Err (FetchError ("HTTP " ++ pretty status_code ++ " for " ++ url)%string)
      else Ok text
  end.

(** One attempt of [_fetch_page], lines 42-61. *)
Definition fetch_attempt (url : string) : IO string :=
  fun w =>
    let '(r, w') := http_get net url w in
    (check_response url r, w').

Definition wait : nat -> float :=
  Tenacity.wait_exponential 0x1.999999999999ap-1%float (* 0.8 *)
                            1%float 8%float.

(** Lines 37-41. *)
Definition _fetch_page (url : string) : IO string :=
  Tenacity.retry 4 wait (fetch_attempt url).

(** [base if p == 1 else f"{base}&p={p}"]. *)
Definition page_url (base : string) (p : Z) : string :=
  if p =? 1 then base else (base ++ "&p=" ++ pretty p)%string.

(** The loop of lines 183-199. *)
Fixpoint page_loop (base : string) (rate_sleep : float) (pages : list Z)
    (items : list Item.t) : IO (list Item.t) :=
  match pages with
  | [] => ret items
  | p :: rest =>
      fun w =>
        let url := page_url base p in
        match _fetch_page url w with
        | (Err _, w') => (Ok items, w')          (* except Exception: break *)
        | (Ok html, w') =>
            match _parse_from_jsonld lib html with
            | Err e => (Err e, w')
            | Ok parsed =>
                let page_items :=
                  match parsed with
                  | [] => _parse_cards html
                  | _ => parsed
                  end in
                let items' := items ++ page_items in
                if Z.of_nat (length page_items) <? 5 then (Ok items', w')
                else (let* _ := sleep rate_sleep in
                      page_loop base rate_sleep rest items') w'
            end
        end
  end.

(** Lines 172-230. *)
Definition fetch_avito : IO (list Item.t) :=
  if negb (PyStr.truthy (AVITO_SEARCH_URL settings)) then ret []
  else
    let base := PyStr.or_empty (AVITO_SEARCH_URL settings) in
    let max_pages := Z.max 1 (AVITO_MAX_PAGES settings) in
    match PyFloat.int_div (AVITO_RATE_LIMIT_MS settings) 1000%float with
    | Err e => raise e
    | Ok rate_sleep =>
        let* items := page_loop base rate_sleep (seqZ 1 max_pages) [] in
        ret (normalize settings items)
    end.

End Fetch.

End Avito.

(** ** [src/db/models.py] *)
Module Listing.
Record t := mk {
  id : Z;
  source : string;
  external_id : option string;
  title : option string;
  address : option string;
  rooms : option Z;
  area_m2 : option float;
  floor : option Z;
  floors_total : option Z;
  price_rub : option Z;
  price_per_m2 : option float;
  url : option string;
  phone_hash : option string;
  active : bool;
  created_at : Z;
  updated_at : Z;
}.

Definition set_price_per_m2 (v : option float) (obj : t) : t :=
  mk (id obj) (source obj) (external_id obj) (title obj) (address obj)
     (rooms obj) (area_m2 obj) (floor obj) (floors_total obj) (price_rub obj)
     v (url obj) (phone_hash obj) (active obj) (created_at obj)
     (updated_at obj).

Definition set_price_rub (v : option Z) (obj : t) : t :=
  mk (id obj) (source obj) (external_id obj) (title obj) (address obj)
     (rooms obj) (area_m2 obj) (floor obj) (floors_total obj) v
     (price_per_m2 obj) (url obj) (phone_hash obj) (active obj)
     (created_at obj) (updated_at obj).

(** [onupdate=func.now()]: what an UPDATE of the row does to it. *)
Definition touch (now : Z) (obj : t) : t :=
  mk (id obj) (source obj) (external_id obj) (title obj) (address obj)
     (rooms obj) (area_m2 obj) (floor obj) (floors_total obj) (price_rub obj)
     (price_per_m2 obj) (url obj) (phone_hash obj) (active obj)
     (created_at obj) now.
End Listing.

Module PriceSnapshot.
Record t := mk {
  id : Z;
  listing_id : Z;
  ts : Z;
  price_rub : option Z;
  price_per_m2 : option float;
}.
End PriceSnapshot.

(** ** The session

    The two tables as the transaction of one run sees them, rows in
    insertion order, and the two [autoincrement] counters.  The session
    flushes before each query, so a query sees the rows added earlier in
    the run.  [func.now()] is the time of the transaction, [now] below. *)
Record Session := {
  listings : list Listing.t;
  price_snapshots : list PriceSnapshot.t;
  listings_id_seq : Z;
  price_snapshots_id_seq : Z;
}.

Module Db.

(** [select(Listing).where(Listing.source == src,
                           Listing.external_id == ext)];
    with [ext = None] the second condition is [IS NULL]. *)
Definition select_listing (src : string) (ext : option string)
    (db : Session) : list Listing.t :=
  filter (fun l => Listing.source l = src ∧ Listing.external_id l = ext)
         (listings db).

(** [result.scalar_one_or_none()]. *)
Definition scalar_one_or_none (rows : list Listing.t) :
    result (option Listing.t) :=
  match rows with
  | [] => Ok None
  | [obj] => Ok (Some obj)
  | _ => Err MultipleResultsFound
  end.

(** [db.add(obj); await db.flush()] for a new listing: the row gets its
    id and its server defaults.  Returns the flushed object. *)
Definition add_listing (now : Z) (obj : Listing.t) (db : Session) :
    Listing.t * Session :=
  let row :=
    Listing.mk (listings_id_seq db) (Listing.source obj)
      (Listing.external_id obj) (Listing.title obj) (Listing.address obj)
      (Listing.rooms obj) (Listing.area_m2 obj) (Listing.floor obj)
      (Listing.floors_total obj) (Listing.price_rub obj)
      (Listing.price_per_m2 obj) (Listing.url obj) (Listing.phone_hash obj)
      true now now in
  (row,
   {| listings := listings db ++ [row];
      price_snapshots := price_snapshots db;
      listings_id_seq := listings_id_seq db + 1;
      price_snapshots_id_seq := price_snapshots_id_seq db |}).

(** [db.add(PriceSnapshot(listing_id=..., price_rub=..., price_per_m2=...))]. *)
Definition add_snapshot (now : Z) (listing_id : Z) (price_rub : option Z)
    (price_per_m2 : option float) (db : Session) : Session :=
  {| listings := listings db;
     price_snapshots :=
       price_snapshots db
       ++ [PriceSnapshot.mk (price_snapshots_id_seq db) listing_id now
             price_rub price_per_m2];
     listings_id_seq := listings_id_seq db;
     price_snapshots_id_seq := price_snapshots_id_seq db + 1 |}.

(** The UPDATE flushed for a loaded object whose attributes were set:
    the row with its primary key is replaced, [updated_at] refreshed. *)
Definition update_listing (now : Z) (obj : Listing.t) (db : Session) :
    Session :=
  {| listings :=
       (fun l => if Listing.id l =? Listing.id obj
                 then Listing.touch now obj else l) <$> listings db;
     price_snapshots := price_snapshots db;
     listings_id_seq := listings_id_seq db;
     price_snapshots_id_seq := price_snapshots_id_seq db |}.

End Db.

(** ** [src/scheduler/jobs.py] *)
Module Jobs.

(** Line 17, the listing built from the payload's keys: a key that is
    no column of the model is a [TypeError]; the columns not in the
    payload stay unset until the flush. *)
Definition Listing_of_payload (payload : Item.t) : result Listing.t :=
  match Item._is_room payload, Item._rent_period payload with
  | None, None =>
      Ok (Listing.mk 0 (Item.source payload) (Item.external_id payload)
            (Item.title payload) (Item.address payload) (Item.rooms payload)
            (Item.area_m2 payload) (Item.floor payload)
            (Item.floors_total payload) (Item.price_rub payload)
            (Item.price_per_m2 payload) (Item.url payload) None true 0 0)
  | _, _ => Err TypeError
  end.

(** [payload.get("area_m2") or obj.area_m2 or 1], as a float. *)
Definition update_area (payload : Item.t) (obj : Listing.t) : float :=
  if float_truthy (Item.area_m2 payload)
  then default 1%float (Item.area_m2 payload)
  else if float_truthy (Listing.area_m2 obj)
  then default 1%float (Listing.area_m2 obj)
  else 1%float.

(** Lines 10-35. *)
Definition upsert_listing (now : Z) (payload : Item.t) (db : Session) :
    result Session :=
  let src := Item.source payload in
  let ext := Item.external_id payload in
  match Db.scalar_one_or_none (Db.select_listing src ext db) with
  | Err e => Err e
  | Ok None =>
      match Listing_of_payload payload with
      | Err e => Err e
      | Ok obj =>
          let computed :=
            if float_truthy (Item.area_m2 payload)
               && int_truthy (Item.price_rub payload)
            then match PyFloat.int_div (default 0 (Item.price_rub payload))
                         (default 1%float (Item.area_m2 payload)) with
                 | Ok f => Ok (Listing.set_price_per_m2 (Some f) obj)
                 | Err e => Err e
                 end
            else Ok obj in
          match computed with
          | Err e => Err e
          | Ok obj =>
              let '(obj, db) := Db.add_listing now obj db in
              Ok (Db.add_snapshot now (Listing.id obj) (Listing.price_rub obj)
                    (Listing.price_per_m2 obj) db)
          end
      end
  | Ok (Some obj) =>
      let new_price := Item.price_rub payload in
      if int_truthy new_price
         && negb (bool_decide (new_price = Listing.price_rub obj))
      then
        let obj := Listing.set_price_rub new_price obj in
        match PyFloat.int_div (default 0 new_price)
                (update_area payload obj) with
        | Err e => Err e
        | Ok f =>
            let obj := Listing.set_price_per_m2 (Some f) obj in
            Ok (Db.add_snapshot now (Listing.id obj) (Listing.price_rub obj)
                  (Listing.price_per_m2 obj)
                  (Db.update_listing now obj db))
        end
      else Ok db
  end.

(** [for item in items: await upsert_listing(db, item)]. *)
Fixpoint upsert_all (now : Z) (items : list Item.t) (db : Session) :
    result Session :=
  match items with
  | [] => Ok db
  | item :: rest =>
      match upsert_listing now item db with
      | Ok db' => upsert_all now rest db'
      | Err e => Err e
      end
  end.

Section Job.
Variable lib : Lib.
Variable settings : Settings.
Variable net : Net.
Variable _build_search_url : Z -> string.

(** Lines 37-45.  [Ok db'] is the committed session. *)
Definition job_scrape_city (now : Z) (db : Session) :
    World -> result Session * World :=
  fun w =>
    match Cian.fetch_cian lib settings net _build_search_url w with
    | (Err e, w1) => (Err e, w1)
    | (Ok cian_items, w1) =>
        match upsert_all now cian_items db with
        | Err e => (Err e, w1)
        | Ok db1 =>
            match Avito.fetch_avito lib settings net w1 with
            | (Err e, w2) => (Err e, w2)
            | (Ok avito_items, w2) =>
                match upsert_all now avito_items db1 with
                | Err e => (Err e, w2)
                | Ok db2 => (Ok db2, w2)
                end
            end
        end
    end.

End Job.

End Jobs.

(** ** [src/api/main.py]: who starts a run

    [run_job(job_scrape_city, ...)] is started from two places.  The
    scheduler job [scrape_city] is added with [max_instances=1] and
    [coalesce=True]: when its interval fires while an instance of the job
    is still running, the firing is skipped.  The handler of
    [POST /jobs/scrape/cian] adds [run_job] as a background task of the
    request, whatever else is running.  Both kinds of runs are coroutines
    of the one event loop and interleave at their awaits. *)
Module Api.

Definition max_instances : nat := 1.

Inductive input :=
  | IntervalFires          (* the trigger of job [scrape_city] is due *)
  | PostScrapeCian         (* a request to [trigger_cian] *)
  | ScheduledRunEnds
  | BackgroundRunEnds.

(** The runs in flight, by who started them. *)
Record State := { scheduled_runs : nat; background_runs : nat }.

Definition idle : State := {| scheduled_runs := 0; background_runs := 0 |}.

Definition step (st : State) (i : input) : State :=
  match i with
  | IntervalFires =>
      if (scheduled_runs st <? max_instances)%nat
      then {| scheduled_runs := S (scheduled_runs st);
              background_runs := background_runs st |}
      else st
  | PostScrapeCian =>
      {| scheduled_runs := scheduled_runs st;
         background_runs := S (background_runs st) |}
  | ScheduledRunEnds =>
      {| scheduled_runs := Nat.pred (scheduled_runs st);
         background_runs := background_runs st |}
  | BackgroundRunEnds =>
      {| scheduled_runs := scheduled_runs st;
         background_runs := Nat.pred (background_runs st) |}
  end.

Definition run (inputs : list input) : State := foldl step idle inputs.

(** The reconciliation passes in flight. *)
Definition in_flight (st : State) : nat :=
  (scheduled_runs st + background_runs st)%nat.

(** Inputs of the scheduler alone. *)
Definition scheduler_only (i : input) : bool :=
  match i with
  | IntervalFires | ScheduledRunEnds => true
  | _ => false
  end.

End Api.

(** The rows of a session obey the primary key of [listings], their ids
    come from the sequence, and no two rows share [(source, external_id)]
    (the index [uq_source_ext] is not unique: only the lookup before each
    insert keeps it so). *)
Definition listing_key (l : Listing.t) : string * option string :=
  (Listing.source l, Listing.external_id l).

Record session_ok (db : Session) : Prop := {
  ok_ids : NoDup (Listing.id <$> listings db);
  ok_seq : Forall (fun l => Listing.id l < listings_id_seq db) (listings db);
  ok_keys : NoDup (listing_key <$> listings db);
}.

(** The empty database after [init_db]. *)
Definition empty_session : Session := {|
  listings := [];
  price_snapshots := [];
  listings_id_seq := 1;
  price_snapshots_id_seq := 1;
|}.




(** ** Concrete inputs used by the examples *)
Module Examples.

(** The defaults of [config.py], with a search url for Avito. *)
Definition settings : Settings := {|
  cian_deal_type := "rent";
  cian_min_area_m2 := 0%float;
  cian_max_price_rub := None;
  cian_rent_long_only := true;
  cian_exclude_rooms := true;
  cian_max_pages := 3;
  cian_rate_limit_ms := 1200;
  AVITO_SEARCH_URL := Some "https://www.avito.ru/sankt-peterburg/kvartiry/sdam?s=104";
  AVITO_MAX_PAGES := 1;
  AVITO_RATE_LIMIT_MS := 1500;
|}.

(** The same with [CIAN_DEAL_TYPE=sale]. *)
Definition sale_settings : Settings := {|
  cian_deal_type := "sale";
  cian_min_area_m2 := 0%float;
  cian_max_price_rub := None;
  cian_rent_long_only := true;
  cian_exclude_rooms := true;
  cian_max_pages := 3;
  cian_rate_limit_ms := 1200;
  AVITO_SEARCH_URL := Some "https://www.avito.ru/sankt-peterburg/kvartiry/sdam?s=104";
  AVITO_MAX_PAGES := 1;
  AVITO_RATE_LIMIT_MS := 1500;
|}.

(** A room to let, as [cian._parse_cards] tags it. *)
Definition room : Item.t := {|
  Item.source := "cian";
  Item.external_id := Some "301";
  Item.title := Some "Сдаётся комната, 18 м²";
  Item.address := Some "Санкт-Петербург, Лиговский проспект";
  Item.rooms := None;
  Item.area_m2 := Some 18%float;
  Item.floor := Some 2;
  Item.floors_total := Some 5;
  Item.price_rub := Some 20000;
  Item.price_per_m2 := Some (PrimFloat.div 20000 18);
  Item.url := Some "https://www.cian.ru/rent/flat/301/";
  Item._is_room := Some true;
  Item._rent_period := Some "monthly";
|}.

(** A flat let by the day. *)
Definition daily_flat : Item.t := {|
  Item.source := "cian";
  Item.external_id := Some "302";
  Item.title := Some "1-комн. квартира посуточно";
  Item.address := None;
  Item.rooms := Some 1;
  Item.area_m2 := Some 35%float;
  Item.floor := None;
  Item.floors_total := None;
  Item.price_rub := Some 3000;
  Item.price_per_m2 := Some (PrimFloat.div 3000 35);
  Item.url := Some "https://www.cian.ru/rent/flat/302/";
  Item._is_room := Some false;
  Item._rent_period := Some "daily";
|}.

(** A flat whose texts name no period. *)
Definition unknown_flat : Item.t := {|
  Item.source := "cian";
  Item.external_id := Some "303";
  Item.title := Some "2-комн. квартира";
  Item.address := None;
  Item.rooms := Some 2;
  Item.area_m2 := Some 54%float;
  Item.floor := None;
  Item.floors_total := None;
  Item.price_rub := Some 60000;
  Item.price_per_m2 := Some (PrimFloat.div 60000 54);
  Item.url := Some "https://www.cian.ru/rent/flat/303/";
  Item._is_room := Some false;
  Item._rent_period := Some "unknown";
|}.

(** A flat whose card shows no price. *)
Definition no_price : Item.t := {|
  Item.source := "avito";
  Item.external_id := Some "304";
  Item.title := Some "2-к. квартира, 54 м², 3/9 эт.";
  Item.address := None;
  Item.rooms := Some 2;
  Item.area_m2 := Some 54%float;
  Item.floor := Some 3;
  Item.floors_total := Some 9;
  Item.price_rub := None;
  Item.price_per_m2 := None;
  Item.url := Some "https://www.avito.ru/sankt-peterburg/kvartiry/2-k._kvartira_304";
  Item._is_room := Some false;
  Item._rent_period := Some "monthly";
|}.

(** The candidate of the scenarios of the spec. *)
Definition flat_123 (price_rub : option Z) : Item.t := {|
  Item.source := "cian";
  Item.external_id := Some "123";
  Item.title := None;
  Item.address := None;
  Item.rooms := None;
  Item.area_m2 := Some 40%float;
  Item.floor := None;
  Item.floors_total := None;
  Item.price_rub := price_rub;
  Item.price_per_m2 := None;
  Item.url := Some "u1";
  Item._is_room := None;
  Item._rent_period := None;
|}.

(** Its row once inserted at time 100 with price 50000. *)
Definition row_123 : Listing.t := {|
  Listing.id := 1;
  Listing.source := "cian";
  Listing.external_id := Some "123";
  Listing.title := None;
  Listing.address := None;
  Listing.rooms := None;
  Listing.area_m2 := Some 40%float;
  Listing.floor := None;
  Listing.floors_total := None;
  Listing.price_rub := Some 50000;
  Listing.price_per_m2 := Some 1250%float;
  Listing.url := Some "u1";
  Listing.phone_hash := None;
  Listing.active := true;
  Listing.created_at := 100;
  Listing.updated_at := 100;
|}.

Definition session_123 : Session := {|
  listings := [row_123];
  price_snapshots := [PriceSnapshot.mk 1 1 100 (Some 50000) (Some 1250%float)];
  listings_id_seq := 2;
  price_snapshots_id_seq := 2;
|}.


(** *** A run of the job on canned pages *)

Fixpoint filler (n : nat) : string :=
  match n with
  | O => ""
  | S n => String " " (filler n)
  end.

(** A page of cian results with one card; the link of the card ends in
    no digits. *)
Definition cian_page : string :=
  ("<html><body><article data-name='CardComponent'>"
   ++ "<a href='//www.cian.ru/rent/flat/novostroyka/'>"
   ++ "<span data-mark='OfferTitle'>1-комн. квартира, 40 м², 3/9 этаж</span></a>"
   ++ "<span data-mark='MainPrice'>50 000 ₽/мес.</span>"
   ++ "</article></body></html>" ++ filler 5000)%string.

Definition cian_card : RawCard := {|
  rc_title := Some "1-комн. квартира, 40 м², 3/9 этаж";
  rc_href := Some "//www.cian.ru/rent/flat/novostroyka/";
  rc_address := None;
  rc_summary := "1-комн. квартира, 40 м², 3/9 этаж50 000 ₽/мес.";
  rc_price_text := "50 000 ₽/мес.";
  rc_text := "1-комн. квартира, 40 м², 3/9 этаж50 000 ₽/мес.";
|}.

(** A page of avito results whose JSON-LD block has one offer, a studio
    let by the day. *)
Definition avito_offer : Offer := {|
  off_url := Some "https://www.avito.ru/sankt-peterburg/kvartiry/kvartira-studiya_25m_4512345678";
  off_name := Some "Квартира-студия, 25 м², 3/9 эт., 2500 за сутки";
  off_price := Some "2500";
|}.

Definition avito_page : string :=
  "<html><script type='application/ld+json'>{'@type': 'Product', 'offers': {'offers': [{'url': 'https://www.avito.ru/sankt-peterburg/kvartiry/kvartira-studiya_25m_4512345678', 'name': 'Квартира-студия, 25 м², 3/9 эт., 2500 за сутки', 'price': '2500'}]}}</script></html>".

(** The ASCII digits of a text, as an int. *)
Fixpoint digits (acc : option Z) (s : string) : option Z :=
  match s with
  | EmptyString => acc
  | String c rest =>
      let n := Z.of_N (N_of_ascii c) in
      if (48 <=? n) && (n <=? 57)
      then digits (Some (10 * default 0 acc + (n - 48))) rest
      else digits acc rest
  end.

(** The results of the libraries on these pages. *)
Definition lib : Lib := {|
  cian_cards := fun html =>
    if String.eqb html cian_page then [cian_card] else [];
  cian_re_external_id := fun url => None;
  cian_re_area := fun txt =>
    if PyStr.contains "40 м²" txt then Some 40%float else None;
  cian_re_floor := fun txt =>
    if PyStr.contains "3/9" txt then Some (3, 9) else None;
  cian_re_rooms := fun txt =>
    if PyStr.contains "1-комн" txt then Some 1 else None;
  re_room_word := fun t => false;
  _parse_int := fun txt =>
    if PyStr.truthy txt then digits None (PyStr.or_empty txt) else None;
  avito_offers := fun html =>
    if String.eqb html avito_page then [avito_offer] else [];
  _extract_external_id := fun url =>
    if PyStr.contains "_4512345678" (PyStr.or_empty url)
    then Some "4512345678" else None;
  _parse_float_m2 := fun txt =>
    if PyStr.contains "25 м²" (PyStr.or_empty txt) then Some 25%float
    else None;
  avito_re_floor := fun txt =>
    if PyStr.contains "3/9 эт" txt then Some (3, 9) else None;
  avito_re_rooms := fun txt =>
    if PyStr.contains "студ" (PyStr.lower txt) then Some 0 else None;
|}.

Definition _build_search_url (p : Z) : string :=
  ("https://www.cian.ru/cat.php?deal_type=rent&engine_version=2"
   ++ "&offer_type=flat&region=1&p=" ++ pretty p
   ++ "&room0=1&room1=1&room2=1")%string.

(** Cian answers 403 to every request; Avito serves its page. *)
Definition net_cian_forbidden : Net :=
  fun n url =>
    if String.prefix "https://www.cian.ru/" url
    then Response 403 "Forbidden"
    else Response 200 avito_page.

(** Cian serves its page; Avito answers 403 to every request. *)
Definition net_avito_forbidden : Net :=
  fun n url =>
    if String.prefix "https://www.cian.ru/" url
    then Response 200 cian_page
    else Response 403 "Forbidden".

Definition start : World := {| requests := 0; trace := [] |}.

End Examples.

(** ** Further notions used by the properties *)

(** A candidate whose two provisional tags have been popped. *)
Definition tag_free (it : Item.t) : Prop :=
  Item._is_room it = None ∧ Item._rent_period it = None.

(** The snapshots of the listing [id] in the order they were written:
    the rows that [price_history] of [main.py] selects. *)
Definition snapshots_of (id : Z) (db : Session) : list PriceSnapshot.t :=
  filter (fun s => PriceSnapshot.listing_id s = id) (price_snapshots db).

(** A snapshot that carries the price fields of a listing. *)
Definition mirrors (l : Listing.t) (s : PriceSnapshot.t) : Prop :=
  PriceSnapshot.price_rub s = Listing.price_rub l
  ∧ PriceSnapshot.price_per_m2 s = Listing.price_per_m2 l.

(** The price history agrees with the listings: every snapshot belongs
    to a stored listing (the foreign key of [price_snapshots]), and the
    snapshot written last for a listing carries its price fields. *)
Record history_ok (db : Session) : Prop := {
  hist_fk : Forall (fun s => PriceSnapshot.listing_id s
                             ∈ Listing.id <$> listings db)
                   (price_snapshots db);
  hist_last : Forall (fun l => ∃ s, last (snapshots_of (Listing.id l) db) = Some s
                                    ∧ mirrors l s)
                     (listings db);
}.




(** An area and a price within the thresholds of the settings: the area
    is known and at least [cian_min_area_m2]; when a maximal price other
    than [0] is configured, the price is known and at most that. *)
Definition within (settings : Settings) (area : option float)
    (price : option Z) : Prop :=
  (∃ a, area = Some a ∧ PyFloat.ge a (cian_min_area_m2 settings) = true)
  ∧ ∀ mx, cian_max_price_rub settings = Some mx → mx ≠ 0 →
          ∃ p, price = Some p ∧ p ≤ mx.

Definition item_within (settings : Settings) (it : Item.t) : Prop :=
  within settings (Item.area_m2 it) (Item.price_rub it).

Definition row_within (settings : Settings) (l : Listing.t) : Prop :=
  within settings (Listing.area_m2 l) (Listing.price_rub l).


(** ** [_build_search_url] of [src/scrapers/cian.py], lines 93-116

    The settings it reads beside [cian_deal_type]. *)
Record SearchSettings := {
  cian_offer_type : string;
  cian_region_id : Z;
  cian_rooms : list string;
}.

(** The defaults of [config.py]. *)
Definition default_search : SearchSettings := {|
  cian_offer_type := "flat";
  cian_region_id := 1;
  cian_rooms := ["studio"; "1"; "2"];
|}.

Module CianSearch.

(** [sep.join(parts)]. *)
Fixpoint join (sep : string) (parts : list string) : string :=
  match parts with
  | [] => ""
  | [p] => p
  | p :: rest => (p ++ sep ++ join sep rest)%string
  end.

Section Build.
(** [str.isdigit] is the library's. *)
Variable isdigit : string -> bool.
Variable settings : Settings.
Variable search : SearchSettings.

(** Lines 105-109: the key of a room, [None] for one that is skipped. *)
Definition room_key (r : string) : option string :=
  if String.eqb r "studio" then Some "room0"
  else if String.eqb r "5+" then Some "room5"
  else if isdigit r then Some ("room" ++ r)%string
  else None.

(** Lines 110-111: [if key: room_flags.append(f"{key}=1")]. *)
Definition room_flag (r : string) : option string :=
  let key := room_key r in
  if PyStr.truthy key then Some (PyStr.or_empty key ++ "=1")%string else None.

(** The dict of lines 96-102, in insertion order. *)
Definition params (page : Z) : list (string * string) :=
  [("deal_type", cian_deal_type settings);
   ("engine_version", "2");
   ("offer_type", cian_offer_type search);
   ("region", pretty (cian_region_id search));
   ("p", pretty page)].

Definition _build_search_url (page : Z) : string :=
  let room_flags := omap room_flag (cian_rooms search) in
  let base := "https://www.cian.ru/cat.php" in
  let query :=
    join "&" (((fun kv => fst kv ++ "=" ++ snd kv)%string <$> params page)
              ++ room_flags) in
  (base ++ "?" ++ query)%string.

End Build.

End CianSearch.

(** The key under which a candidate is reconciled. *)
Definition payload_key (it : Item.t) : string * option string :=
  (Item.source it, Item.external_id it).

(** A candidate that the store has taken in: its row is there, with the
    candidate's price when that is present and not zero. *)
Definition settled (it : Item.t) (db : Session) : Prop :=
  ∃ row, Db.select_listing (Item.source it) (Item.external_id it) db = [row]
         ∧ (int_truthy (Item.price_rub it) = true →
            Listing.price_rub row = Item.price_rub it).

(** What reconciliation leaves of a stored listing: everything but the
    two price fields and [updated_at]. *)
Definition stable_part (l : Listing.t) : Listing.t :=
  Listing.touch 0
    (Listing.set_price_per_m2 None (Listing.set_price_rub None l)).

(** A candidate of source [avito], as [fetch_avito] returns it. *)
Definition avito_studio : Item.t := {|
  Item.source := "avito";
  Item.external_id := Some "4512345678";
  Item.title := Some "Квартира-студия, 25 м², 3/9 эт.";
  Item.address := None;
  Item.rooms := Some 0;
  Item.area_m2 := Some 25%float;
  Item.floor := Some 3;
  Item.floors_total := Some 9;
  Item.price_rub := Some 30000;
  Item.price_per_m2 := Some 1200%float;
  Item.url := Some "https://www.avito.ru/sankt-peterburg/kvartiry/kvartira-studiya_25m_4512345678";
  Item._is_room := None;
  Item._rent_period := None;
|}.

(** The defaults of [config.py] with no [AVITO_SEARCH_URL] in the
    environment. *)
Definition settings_without_avito : Settings := {|
  cian_deal_type := "rent";
  cian_min_area_m2 := 0%float;
  cian_max_price_rub := None;
  cian_rent_long_only := true;
  cian_exclude_rooms := true;
  cian_max_pages := 3;
  cian_rate_limit_ms := 1200;
  AVITO_SEARCH_URL := None;
  AVITO_MAX_PAGES := 1;
  AVITO_RATE_LIMIT_MS := 1500;
|}.

(** * Properties

    ** Deduplication *)

Lemma dedup_loop_from seen acc out :
  (foldl dedup_step (seen, acc) out).2 = acc ++ first_occurrences seen out.
Proof.
  revert seen acc. induction out as [|item rest IH]; intros seen acc; simpl.
  - by rewrite app_nil_r.
  - destruct (decide (Item.key item ∈ seen)); rewrite IH; [done|].
    by rewrite <- app_assoc.
Qed.

Lemma dedup_first_occurrences out : dedup out = first_occurrences ∅ out.
Proof. unfold dedup, dedup_loop. by rewrite dedup_loop_from. Qed.

Lemma first_occurrences_sublist seen out :
  sublist (first_occurrences seen out) out.
Proof.
  revert seen. induction out as [|item rest IH]; intros seen; simpl.
  - constructor.
  - destruct (decide _); [apply sublist_cons | apply sublist_skip]; apply IH.
Qed.

Lemma first_occurrences_fresh seen out it :
  it ∈ first_occurrences seen out → Item.key it ∉ seen.
Proof.
  revert seen. induction out as [|item rest IH]; intros seen; simpl.
  - by intros ?%elem_of_nil.
  - destruct (decide _) as [|Hn]; [apply IH|].
    intros [->|Hin]%elem_of_cons; [done|].
    apply IH in Hin. intros Hs. apply Hin. by apply elem_of_union_r.
Qed.

Lemma first_occurrences_NoDup seen out :
  NoDup (Item.key <$> first_occurrences seen out).
Proof.
  revert seen. induction out as [|item rest IH]; intros seen; simpl.
  - constructor.
  - destruct (decide _); [apply IH|].
    rewrite fmap_cons. constructor; [|apply IH].
    intros Hin. apply list_elem_of_fmap in Hin as (it & Hk & Hin).
    apply first_occurrences_fresh in Hin. apply Hin.
    rewrite <- Hk. apply elem_of_union_l. by apply elem_of_singleton.
Qed.


Lemma key_pop_tags it : Item.key (Item.pop_tags it) = Item.key it.
Proof. done. Qed.

Lemma keys_pop_all (l : list Item.t) : Item.key <$> (Item.pop_tags <$> l) = Item.key <$> l.
Proof. rewrite <- list_fmap_compose. by apply list_fmap_ext. Qed.

Lemma cian_long_rent_sublist s l : sublist (Cian.long_rent_filter s l) l.
Proof. unfold Cian.long_rent_filter. destruct (_ && _); [apply sublist_filter|done]. Qed.
Lemma cian_rooms_sublist s l : sublist (Cian.rooms_filter s l) l.
Proof. unfold Cian.rooms_filter. destruct (cian_exclude_rooms s); [apply sublist_filter|done]. Qed.
Lemma avito_long_rent_sublist s l : sublist (Avito.long_rent_filter s l) l.
Proof. unfold Avito.long_rent_filter. destruct (cian_rent_long_only s); [apply sublist_filter|done]. Qed.
Lemma avito_rooms_sublist s l : sublist (Avito.rooms_filter s l) l.
Proof. unfold Avito.rooms_filter. destruct (cian_exclude_rooms s); [apply sublist_filter|done]. Qed.

Lemma cian_normalize_sublist s out :
  sublist (Cian.normalize s out) (Item.pop_tags <$> dedup out).
Proof.
  unfold Cian.normalize, Cian.numeric_filter, Cian.pop_all.
  etrans; [apply sublist_filter|]. etrans; [apply cian_rooms_sublist|].
  apply fmap_sublist, cian_long_rent_sublist.
Qed.

Lemma avito_normalize_sublist s out :
  sublist (Avito.normalize s out) (Item.pop_tags <$> dedup out).
Proof.
  unfold Avito.normalize, Avito.numeric_filter, Avito.pop_all.
  apply fmap_sublist.
  etrans; [apply sublist_filter|]. etrans; [apply avito_rooms_sublist|].
  apply avito_long_rent_sublist.
Qed.


(** ** The filters *)

Lemma filter_all {A} (P : A → Prop) `{∀ x, Decision (P x)} (l : list A) :
  Forall P l → filter P l = l.
Proof.
  induction 1 as [|x l Hx _ IH]; [done|].
  by rewrite filter_cons_True, IH.
Qed.

Lemma cian_not_is_room_popped it : Cian.not_is_room (Item.pop_tags it) = true.
Proof. done. Qed.

(** In [fetch_cian] the tags are popped before the rooms filter runs, so
    the filter removes nothing. *)
Lemma cian_rooms_filter_after_pop settings (deduped : list Item.t) :
  Cian.rooms_filter settings (Cian.pop_all deduped) = Cian.pop_all deduped.
Proof.
  unfold Cian.rooms_filter. destruct (cian_exclude_rooms settings); [|done].
  apply filter_all, Forall_fmap, Forall_forall. intros it _.
  unfold compose. by rewrite cian_not_is_room_popped.
Qed.

(** In [fetch_avito] the rooms filter runs on the tagged dicts. *)
Lemma avito_rooms_filter_drops_rooms settings (deduped : list Item.t) it :
  cian_exclude_rooms settings = true →
  it ∈ Avito.rooms_filter settings deduped →
  it ∈ deduped ∧ Item._is_room it ≠ Some true.
Proof.
  unfold Avito.rooms_filter. intros ->.
  intros [Hroom Hin]%list_elem_of_filter. split; [done|].
  unfold Avito.not_is_room in Hroom. intros Heq. by rewrite Heq in Hroom.
Qed.

(** C3 (code defect).  With [exclude_rooms] configured the normalizer is
    to return no candidate tagged [is_room].  [fetch_cian] pops the tags
    (lines 306-309) before its rooms filter reads them (lines 311-315):
    on popped dicts the filter is the identity, and the tagged room of
    [Examples.room] is returned; [fetch_avito], which filters first, drops
    it. *)
Theorem cian_rooms_filter_reads_popped_tag :
  (∀ settings deduped,
     Cian.rooms_filter settings (Cian.pop_all deduped) = Cian.pop_all deduped)
  ∧ cian_exclude_rooms Examples.settings = true
  ∧ Item._is_room Examples.room = Some true
  ∧ Cian.normalize Examples.settings [Examples.room]
    = [Item.pop_tags Examples.room]
  ∧ Avito.normalize Examples.settings [Examples.room] = [].
Proof.
  split; [apply cian_rooms_filter_after_pop|].
  repeat split; vm_compute; reflexivity.
Qed.

Lemma cian_area_ok_spec settings it :
  Cian.area_ok settings it = true ↔
  ∃ a, Item.area_m2 it = Some a
       ∧ PyFloat.ge a (cian_min_area_m2 settings) = true.
Proof.
  unfold Cian.area_ok. destruct (Item.area_m2 it) as [a|]; split.
  - intros Ha. by exists a.
  - by intros (a' & [= <-] & Ha).
  - intros [=].
  - by intros (a' & [=] & _).
Qed.

Lemma cian_price_ok_spec settings it :
  Cian.price_ok settings it = true ↔
  cian_max_price_rub settings = None
  ∨ ∃ p mx, Item.price_rub it = Some p
            ∧ cian_max_price_rub settings = Some mx ∧ p ≤ mx.
Proof.
  unfold Cian.price_ok.
  destruct (cian_max_price_rub settings) as [mx|]; [|by split; [left|]].
  destruct (Item.price_rub it) as [p|]; split.
  - intros Hp%Z.leb_le. right. by exists p, mx.
  - intros [[=]|(p' & mx' & [= <-] & [= <-] & Hp)]. by apply Z.leb_le.
  - intros [=].
  - by intros [[=]|(p' & mx' & [=] & _)].
Qed.

(** The numeric filter of [fetch_cian] keeps a candidate exactly when its
    area is present and at least the minimum and, when a maximum price is
    configured, its price is present and at most the maximum. *)
Lemma cian_numeric_filter_spec settings (deduped : list Item.t) it :
  it ∈ Cian.numeric_filter settings deduped ↔
  it ∈ deduped
  ∧ (∃ a, Item.area_m2 it = Some a
          ∧ PyFloat.ge a (cian_min_area_m2 settings) = true)
  ∧ (cian_max_price_rub settings = None
     ∨ ∃ p mx, Item.price_rub it = Some p
               ∧ cian_max_price_rub settings = Some mx ∧ p ≤ mx).
Proof.
  unfold Cian.numeric_filter.
  rewrite list_elem_of_filter, andb_True, !Is_true_true.
  rewrite cian_area_ok_spec, cian_price_ok_spec. tauto.
Qed.

Lemma avito_area_ok_spec settings it :
  Avito.area_ok settings it = true ↔
  ∃ a, Item.area_m2 it = Some a
       ∧ PyFloat.ge a (cian_min_area_m2 settings) = true.
Proof.
  unfold Avito.area_ok. destruct (Item.area_m2 it) as [a|]; split.
  - intros Ha. by exists a.
  - by intros (a' & [= <-] & Ha).
  - intros [=].
  - by intros (a' & [=] & _).
Qed.

Lemma avito_price_ok_spec settings it :
  Avito.price_ok settings it = true ↔
  ∃ p, Item.price_rub it = Some p ∧ p ≤ Avito.price_cap settings.
Proof.
  unfold Avito.price_ok. destruct (Item.price_rub it) as [p|]; split.
  - intros Hp%Z.leb_le. by exists p.
  - intros (p' & [= <-] & Hp). by apply Z.leb_le.
  - intros [=].
  - by intros (p' & [=] & _).
Qed.

(** The numeric filter of [fetch_avito] asks for a price whatever is
    configured, and caps it at 10^12 when no maximum is. *)
Lemma avito_numeric_filter_spec settings (deduped : list Item.t) it :
  it ∈ Avito.numeric_filter settings deduped ↔
  it ∈ deduped
  ∧ (∃ a, Item.area_m2 it = Some a
          ∧ PyFloat.ge a (cian_min_area_m2 settings) = true)
  ∧ (∃ p, Item.price_rub it = Some p ∧ p ≤ Avito.price_cap settings).
Proof.
  unfold Avito.numeric_filter.
  rewrite list_elem_of_filter, andb_True, !Is_true_true.
  rewrite avito_area_ok_spec, avito_price_ok_spec. tauto.
Qed.

Lemma avito_price_cap_unset settings :
  cian_max_price_rub settings = None → Avito.price_cap settings = 10 ^ 12.
Proof. unfold Avito.price_cap. by intros ->. Qed.

(** C5 (code defect).  The numeric filter is to keep a candidate exactly
    when its area is present and at least the minimum and its price is
    present and at most the maximum, or no maximum is configured.
    [fetch_cian] does so ([cian_numeric_filter_spec]).  [fetch_avito],
    whose comment says its filters are those of [fetch_cian], drops every
    candidate without a price, and every price above 10^12, also when no
    maximum is configured: with the default settings [Examples.no_price]
    passes the first filter and not the second. *)
Theorem avito_numeric_filter_requires_price :
  cian_max_price_rub Examples.settings = None
  ∧ Item.price_rub Examples.no_price = None
  ∧ Cian.area_ok Examples.settings Examples.no_price = true
  ∧ Cian.numeric_filter Examples.settings [Examples.no_price]
    = [Examples.no_price]
  ∧ Avito.numeric_filter Examples.settings [Examples.no_price] = []
  ∧ (∀ settings deduped it,
       it ∈ Avito.numeric_filter settings deduped →
       ∃ p, Item.price_rub it = Some p ∧ p ≤ Avito.price_cap settings)
  ∧ (∀ settings,
       cian_max_price_rub settings = None →
       Avito.price_cap settings = 10 ^ 12).
Proof.
  repeat split; try (vm_compute; reflexivity).
  - intros settings deduped it Hin.
    by apply avito_numeric_filter_spec in Hin as (_ & _ & Hp).
  - apply avito_price_cap_unset.
Qed.

Lemma cian_long_rent_filter_on settings (deduped : list Item.t) :
  cian_deal_type settings = "rent" →
  cian_rent_long_only settings = true →
  Cian.long_rent_filter settings deduped
  = filter (fun it => Item._rent_period it ≠ Some "daily") deduped.
Proof. unfold Cian.long_rent_filter. by intros -> ->. Qed.

Lemma cian_long_rent_filter_other_deal settings (deduped : list Item.t) :
  cian_deal_type settings ≠ "rent" →
  Cian.long_rent_filter settings deduped = deduped.
Proof.
  unfold Cian.long_rent_filter. intros Hne.
  destruct (String.eqb_spec (cian_deal_type settings) "rent"); done.
Qed.

(** C6 as the spec states it fails in [fetch_cian]: with
    [rent_long_only] set and a deal type other than [rent], the filter
    stage keeps a candidate tagged [daily]. *)
Lemma cian_long_rent_filter_keeps_daily_on_sale :
  cian_rent_long_only Examples.sale_settings = true
  ∧ Item._rent_period Examples.daily_flat = Some "daily"
  ∧ Cian.long_rent_filter Examples.sale_settings [Examples.daily_flat]
    = [Examples.daily_flat].
Proof. repeat split. Qed.

(** C6, amended.  With [rent_long_only] set, the long-rent stage of
    [fetch_avito], and that of [fetch_cian] when the deal type is [rent],
    drops every candidate tagged [daily] and keeps every candidate tagged
    [unknown]; with another deal type the stage of [fetch_cian] returns
    its input. *)
Theorem long_rent_filter_drops_daily_keeps_unknown
    (settings : Settings) (deduped : list Item.t) :
  cian_rent_long_only settings = true →
  (cian_deal_type settings = "rent" →
     (∀ it, Item._rent_period it = Some "daily" →
            it ∉ Cian.long_rent_filter settings deduped)
     ∧ (∀ it, it ∈ deduped → Item._rent_period it = Some "unknown" →
              it ∈ Cian.long_rent_filter settings deduped))
  ∧ (cian_deal_type settings ≠ "rent" →
     Cian.long_rent_filter settings deduped = deduped)
  ∧ (∀ it, Item._rent_period it = Some "daily" →
           it ∉ Avito.long_rent_filter settings deduped)
  ∧ (∀ it, it ∈ deduped → Item._rent_period it = Some "unknown" →
           it ∈ Avito.long_rent_filter settings deduped).
Proof.
  intros Hlong. repeat split.
  - intros it Hd. rewrite cian_long_rent_filter_on by done.
    by intros [Hne _]%list_elem_of_filter.
  - intros it Hin Hu. rewrite cian_long_rent_filter_on by done.
    apply list_elem_of_filter. split; [by rewrite Hu|done].
  - apply cian_long_rent_filter_other_deal.
  - intros it Hd. unfold Avito.long_rent_filter. rewrite Hlong.
    by intros [Hne _]%list_elem_of_filter.
  - intros it Hin Hu. unfold Avito.long_rent_filter. rewrite Hlong.
    apply list_elem_of_filter. split; [by rewrite Hu|done].
Qed.

Lemma long_rent_filter_drops_daily_keeps_unknown_witness :
  cian_rent_long_only Examples.settings = true
  ∧ ((cian_deal_type Examples.settings = "rent" →
       (∀ it, Item._rent_period it = Some "daily" →
              it ∉ Cian.long_rent_filter Examples.settings
                     [Examples.daily_flat; Examples.unknown_flat])
       ∧ (∀ it, it ∈ [Examples.daily_flat; Examples.unknown_flat] →
                Item._rent_period it = Some "unknown" →
                it ∈ Cian.long_rent_filter Examples.settings
                       [Examples.daily_flat; Examples.unknown_flat]))
     ∧ (cian_deal_type Examples.settings ≠ "rent" →
        Cian.long_rent_filter Examples.settings
          [Examples.daily_flat; Examples.unknown_flat]
        = [Examples.daily_flat; Examples.unknown_flat])
     ∧ (∀ it, Item._rent_period it = Some "daily" →
              it ∉ Avito.long_rent_filter Examples.settings
                     [Examples.daily_flat; Examples.unknown_flat])
     ∧ (∀ it, it ∈ [Examples.daily_flat; Examples.unknown_flat] →
              Item._rent_period it = Some "unknown" →
              it ∈ Avito.long_rent_filter Examples.settings
                     [Examples.daily_flat; Examples.unknown_flat])).
Proof.
  split; [reflexivity|].
  exact (long_rent_filter_drops_daily_keeps_unknown Examples.settings
           [Examples.daily_flat; Examples.unknown_flat] eq_refl).
Defined.

Example long_rent_filter_example :
  Cian.long_rent_filter Examples.settings
    [Examples.daily_flat; Examples.unknown_flat] = [Examples.unknown_flat].
Proof. vm_compute. reflexivity. Qed.

(** ** Reconciliation *)


Lemma select_listing_rows src ext (ls : list Listing.t) obj :
  NoDup (listing_key <$> ls) →
  obj ∈ ls →
  listing_key obj = (src, ext) →
  filter (fun l => Listing.source l = src ∧ Listing.external_id l = ext) ls
  = [obj].
Proof.
  intros Hnd Hin Hkey. induction ls as [|l ls IH]; [by apply elem_of_nil in Hin|].
  rewrite fmap_cons in Hnd. apply NoDup_cons in Hnd as [Hfresh Hnd].
  assert (Hrest : ∀ x, listing_key x = (src, ext) → x ∈ ls →
                       listing_key x ∈ listing_key <$> ls).
  { intros x _ Hx. by apply list_elem_of_fmap_2. }
  apply elem_of_cons in Hin as [<-|Hin].
  - injection Hkey as Hs He. rewrite filter_cons_True by done. f_equal.
    clear IH. induction ls as [|x xs IHx]; [done|].
    rewrite fmap_cons in Hfresh, Hnd.
    apply not_elem_of_cons in Hfresh as [Hne Hfresh].
    apply NoDup_cons in Hnd as [_ Hnd].
    rewrite filter_cons_False.
    + apply IHx; [done|done|]. intros y Hy Hyin. by apply list_elem_of_fmap_2.
    + intros [Hs' He']. apply Hne. unfold listing_key.
      by rewrite Hs, He, Hs', He'.
  - rewrite filter_cons_False; [by apply IH|].
    intros [Hs He]. apply Hfresh.
    replace (listing_key l) with (listing_key obj)
      by (rewrite Hkey; unfold listing_key; by rewrite Hs, He).
    by apply list_elem_of_fmap_2.
Qed.










Lemma session_123_ok : session_ok Examples.session_123.
Proof.
  split; simpl.
  - apply NoDup_singleton.
  - by repeat constructor.
  - apply NoDup_singleton.
Qed.


(** *** The lookup before insert keeps the rows unique *)

Lemma empty_session_ok : session_ok empty_session.
Proof. split; simpl; constructor. Qed.

Lemma select_listing_elem src ext db obj :
  obj ∈ Db.select_listing src ext db ↔
  obj ∈ listings db ∧ listing_key obj = (src, ext).
Proof.
  unfold Db.select_listing, listing_key. rewrite list_elem_of_filter.
  split.
  - by intros [[-> ->] Hin].
  - intros [Hin [= -> ->]]. done.
Qed.

Lemma select_listing_at_most_one src ext db :
  session_ok db →
  Db.select_listing src ext db = []
  ∨ ∃ obj, Db.select_listing src ext db = [obj].
Proof.
  intros Hok. destruct (Db.select_listing src ext db) as [|obj rows] eqn:Hsel;
    [by left|right].
  assert (Hobj : obj ∈ Db.select_listing src ext db)
    by (rewrite Hsel; apply elem_of_cons; by left).
  apply select_listing_elem in Hobj as [Hin Hkey].
  exists obj. rewrite <- Hsel. unfold Db.select_listing.
  apply select_listing_rows; [apply Hok|done|done].
Qed.

Lemma select_listing_nil src ext db :
  Db.select_listing src ext db = [] →
  Forall (fun l => listing_key l ≠ (src, ext)) (listings db).
Proof.
  intros Hsel. apply Forall_forall. intros l Hin Hkey.
  assert (Hl : l ∈ Db.select_listing src ext db)
    by (by apply select_listing_elem).
  rewrite Hsel in Hl. by apply elem_of_nil in Hl.
Qed.

Lemma add_listing_ok now obj db :
  session_ok db →
  Forall (fun l => listing_key l ≠ listing_key obj) (listings db) →
  session_ok (Db.add_listing now obj db).2.
Proof.
  intros [Hids Hseq Hkeys] Hfresh. split; simpl.
  - rewrite fmap_app. apply NoDup_app. split; [done|]. split.
    + intros x Hx Hx'. apply list_elem_of_fmap in Hx as (l & -> & Hl).
      apply list_elem_of_singleton in Hx'. simpl in Hx'.
      rewrite Forall_forall in Hseq. specialize (Hseq l Hl). lia.
    + apply NoDup_singleton.
  - apply Forall_app. split.
    + eapply Forall_impl; [exact Hseq|]. simpl. intros; lia.
    + repeat constructor. simpl. lia.
  - rewrite fmap_app. apply NoDup_app. split; [done|]. split.
    + intros x Hx Hx'. apply list_elem_of_fmap in Hx as (l & -> & Hl).
      apply list_elem_of_singleton in Hx'.
      rewrite Forall_forall in Hfresh. by apply (Hfresh l Hl).
    + apply NoDup_singleton.
Qed.

Lemma add_snapshot_ok now listing_id price_rub price_per_m2 db :
  session_ok db →
  session_ok (Db.add_snapshot now listing_id price_rub price_per_m2 db).
Proof. by intros [Hids Hseq Hkeys]. Qed.

Lemma update_listing_ok now obj new db :
  session_ok db → obj ∈ listings db →
  Listing.id new = Listing.id obj → listing_key new = listing_key obj →
  session_ok (Db.update_listing now new db).
Proof.
  intros [Hids Hseq Hkeys] Hin Hid Hkey.
  assert (Hsame : ∀ l, l ∈ listings db →
            Listing.id l = Listing.id new → l = obj).
  { intros l Hl Hl'. rewrite Hid in Hl'.
    apply list_elem_of_lookup in Hl as [j Hj], Hin as [k Hk].
    assert (j = k) as ->; [|congruence].
    eapply NoDup_lookup; [exact Hids| |];
      rewrite list_lookup_fmap; [by rewrite Hj|by rewrite Hk, Hl']. }
  assert (Hmap : ∀ (A : Type) (g : Listing.t → A),
            g (Listing.touch now new) = g obj →
            g <$> listings (Db.update_listing now new db)
            = g <$> listings db).
  { intros A g Hg. simpl. rewrite <- list_fmap_compose.
    apply list_fmap_ext. intros j l Hl. simpl.
    destruct (Z.eqb_spec (Listing.id l) (Listing.id new)) as [Heq|]; [|done].
    rewrite Hg. f_equal. symmetry. apply Hsame; [|done].
    by eapply list_elem_of_lookup_2. }
  split.
  - by rewrite (Hmap _ Listing.id).
  - apply Forall_fmap. simpl.
    rewrite Forall_forall in Hseq. apply Forall_forall. intros l Hl.
    unfold compose.
    destruct (Z.eqb_spec (Listing.id l) (Listing.id new)); simpl.
    + rewrite Hid. by apply Hseq.
    + by apply Hseq.
  - by rewrite (Hmap _ listing_key).
Qed.

(** [upsert_listing] keeps a session well formed, and on a well-formed
    session its lookup never finds two rows. *)
Lemma upsert_listing_ok now payload db db' :
  session_ok db →
  Jobs.upsert_listing now payload db = Ok db' →
  session_ok db'.
Proof.
  intros Hok. unfold Jobs.upsert_listing.
  destruct (select_listing_at_most_one (Item.source payload)
              (Item.external_id payload) db Hok) as [Hsel|[obj Hsel]];
    rewrite Hsel; simpl.
  - apply select_listing_nil in Hsel.
    destruct (Jobs.Listing_of_payload payload) as [new|] eqn:Hnew; [|done].
    assert (Hkey : listing_key new
                   = (Item.source payload, Item.external_id payload)).
    { unfold Jobs.Listing_of_payload in Hnew.
      destruct (Item._is_room payload), (Item._rent_period payload);
        try done. by injection Hnew as <-. }
    destruct (float_truthy _ && int_truthy _).
    + destruct (PyFloat.int_div _ _) as [f|]; [|done].
      intros [= <-]. apply add_snapshot_ok.
      apply (add_listing_ok now (Listing.set_price_per_m2 (Some f) new) db);
        [done|]. by rewrite <- Hkey in Hsel.
    + intros [= <-]. apply add_snapshot_ok.
      apply (add_listing_ok now new db); [done|].
      by rewrite <- Hkey in Hsel.
  - assert (Hin : obj ∈ listings db).
    { apply (select_listing_elem (Item.source payload)
               (Item.external_id payload)).
      rewrite Hsel. apply elem_of_cons. by left. }
    destruct (int_truthy _ && negb _); [|by intros [= <-]].
    destruct (PyFloat.int_div _ _) as [f|]; [|done].
    intros [= <-]. apply add_snapshot_ok.
    by apply (update_listing_ok now obj).
Qed.


(** ** Fetch failures *)






(** A status of 400 or more makes both [_fetch_page]s raise [FetchError]. *)
Lemma cian_check_response_status url status text :
  400 ≤ status →
  ∃ msg, Cian.check_response url (Response status text) = Err (FetchError msg).
Proof.
  intros Hs%Z.leb_le. unfold Cian.check_response. rewrite Hs.
  destruct (PyStr.any_in Cian.ANTI_BOT_MARKERS (PyStr.lower text)); eauto.
Qed.

Lemma avito_check_response_status url status text :
  400 ≤ status →
  ∃ msg, Avito.check_response url (Response status text) = Err (FetchError msg).
Proof. intros Hs%Z.leb_le. unfold Avito.check_response. rewrite Hs. eauto. Qed.





Lemma range_from_1 n : seqZ 1 (Z.max 1 n) = 1 :: seqZ 2 (Z.max 1 n - 1).
Proof. rewrite seqZ_cons by lia. f_equal. Qed.









(** ** The provisional tags *)

Lemma avito_offer_item_monthly lib off :
  match Avito.offer_item lib off with
  | Some (Ok it) => Item._rent_period it = Some "monthly"
  | _ => True
  end.
Proof.
  unfold Avito.offer_item. destruct (negb _ || negb _); [done|].
  by destruct (Avito._price_per_m2 _ _).
Qed.

Lemma cian_card_item_rent_period lib c :
  match Cian.card_item lib c with
  | Ok it =>
      Item._rent_period it
      = Some (Cian._detect_rent_period
                (PyStr.join_space [rc_price_text c; PyStr.or_empty (rc_title c);
                                   rc_summary c; rc_text c]))
  | Err _ => True
  end.
Proof. unfold Cian.card_item. by destruct (Cian._price_per_m2 _ _). Qed.

(** C4 (code defect).  Every candidate is to carry the rental period
    that the keyword heuristic finds in its texts.  [cian._parse_cards]
    tags each card with [_detect_rent_period] of its price, title, summary
    and card text.  [avito._parse_from_jsonld] writes the constant
    ["monthly"] and never calls the [_detect_rent_period] that [avito.py]
    defines: the offer of [Examples.avito_offer], whose name says
    [за сутки], both heuristics read as [daily], and it is tagged
    [monthly] and passes the long-rent filter. *)
Theorem avito_rent_period_is_constant :
  (∀ lib off,
     match Avito.offer_item lib off with
     | Some (Ok it) => Item._rent_period it = Some "monthly"
     | _ => True
     end)
  ∧ off_name Examples.avito_offer
    = Some "Квартира-студия, 25 м², 3/9 эт., 2500 за сутки"
  ∧ Avito._detect_rent_period "Квартира-студия, 25 м², 3/9 эт., 2500 за сутки"
    = "daily"
  ∧ Cian._detect_rent_period "Квартира-студия, 25 м², 3/9 эт., 2500 за сутки"
    = "daily"
  ∧ (match Avito.offer_item Examples.lib Examples.avito_offer with
     | Some (Ok it) => Item._rent_period it
     | _ => None
     end) = Some "monthly"
  ∧ cian_rent_long_only Examples.settings = true
  ∧ (match Avito._parse_from_jsonld Examples.lib Examples.avito_page with
     | Ok items => Item.title <$> Avito.normalize Examples.settings items
     | Err _ => []
     end) = [Some "Квартира-студия, 25 м², 3/9 эт., 2500 за сутки"]
  ∧ (∀ lib c,
       match Cian.card_item lib c with
       | Ok it =>
           Item._rent_period it
           = Some (Cian._detect_rent_period
                     (PyStr.join_space
                        [rc_price_text c; PyStr.or_empty (rc_title c);
                         rc_summary c; rc_text c]))
       | Err _ => True
       end).
Proof.
  split; [exact avito_offer_item_monthly|].
  do 6 (split; [vm_compute; reflexivity|]).
  exact cian_card_item_rent_period.
Qed.

(** ** Candidates without an identifier *)



Lemma dedup_sublist out : sublist (dedup out) out.
Proof. rewrite dedup_first_occurrences. apply first_occurrences_sublist. Qed.

Lemma Forall_sublist {A} (P : A → Prop) (l k : list A) :
  sublist l k → Forall P k → Forall P l.
Proof.
  intros Hsub Hk. apply Forall_forall. intros x Hx.
  rewrite Forall_forall in Hk. apply Hk. by eapply elem_of_sublist.
Qed.













(** ** Runs in flight *)

Lemma scheduler_keeps_one_instance st inputs :
  (Api.scheduled_runs st ≤ 1)%nat → Api.background_runs st = 0%nat →
  forallb Api.scheduler_only inputs = true →
  (Api.in_flight (foldl Api.step st inputs) ≤ 1)%nat.
Proof.
  revert st. induction inputs as [|i rest IH]; intros st Hs Hb Hall; simpl.
  - unfold Api.in_flight. lia.
  - simpl in Hall. apply andb_true_iff in Hall as [Hi Hrest].
    apply IH; [| |done]; destruct i; try done; simpl.
    + destruct (Nat.ltb_spec (Api.scheduled_runs st) Api.max_instances);
        simpl; unfold Api.max_instances in *; lia.
    + lia.
    + by destruct (_ <? _)%nat.
Qed.

(** C10 (code defect).  At most one reconciliation pass is to be in
    flight.  The scheduler's job keeps to that on its own
    ([max_instances=1]); [trigger_cian] starts [run_job] as a background
    task without asking the scheduler or taking a lock, so a request that
    arrives during a scheduled run, or two requests in a row, put two
    passes in flight. *)
Theorem posted_run_overlaps_active_run :
  Api.in_flight (Api.run [Api.IntervalFires; Api.PostScrapeCian]) = 2%nat
  ∧ Api.in_flight (Api.run [Api.PostScrapeCian; Api.PostScrapeCian]) = 2%nat
  ∧ Api.in_flight (Api.run [Api.IntervalFires; Api.IntervalFires]) = 1%nat
  ∧ (∀ inputs,
       forallb Api.scheduler_only inputs = true →
       (Api.in_flight (Api.run inputs) ≤ 1)%nat).
Proof.
  do 3 (split; [reflexivity|]). intros inputs Hall. unfold Api.run.
  apply scheduler_keeps_one_instance; [simpl; lia|done|done].
Qed.

(** * Further properties

    ** Reconciliation *)

Lemma select_listing_by_key db row src ext :
  session_ok db → row ∈ listings db → listing_key row = (src, ext) →
  Db.select_listing src ext db = [row].
Proof.
  intros Hok Hin Hkey. unfold Db.select_listing.
  apply select_listing_rows; [apply Hok|done|done].
Qed.

Lemma Listing_of_payload_fields payload new :
  Jobs.Listing_of_payload payload = Ok new →
  tag_free payload
  ∧ new = Listing.mk 0 (Item.source payload) (Item.external_id payload)
            (Item.title payload) (Item.address payload) (Item.rooms payload)
            (Item.area_m2 payload) (Item.floor payload)
            (Item.floors_total payload) (Item.price_rub payload)
            (Item.price_per_m2 payload) (Item.url payload) None true 0 0.
Proof.
  unfold Jobs.Listing_of_payload, tag_free.
  destruct (Item._is_room payload), (Item._rent_period payload); try done.
  by intros [= <-].
Qed.

Lemma upsert_listing_select_after now payload db db' :
  session_ok db →
  Jobs.upsert_listing now payload db = Ok db' →
  ∃ row, Db.select_listing (Item.source payload) (Item.external_id payload) db'
         = [row]
         ∧ (int_truthy (Item.price_rub payload) = true →
            Listing.price_rub row = Item.price_rub payload).
Proof.
  intros Hok Hup. pose proof (upsert_listing_ok _ _ _ _ Hok Hup) as Hok'.
  revert Hup Hok'. unfold Jobs.upsert_listing.
  destruct (select_listing_at_most_one (Item.source payload)
              (Item.external_id payload) db Hok) as [Hsel|[obj Hsel]];
    rewrite Hsel; simpl.
  - destruct (Jobs.Listing_of_payload payload) as [new|] eqn:Hnew; [|done].
    apply Listing_of_payload_fields in Hnew as [_ ->].
    destruct (float_truthy _ && int_truthy _).
    + destruct (PyFloat.int_div _ _) as [f|]; [|done].
      intros [= <-] Hok'. eexists. split.
      * eapply select_listing_by_key; [exact Hok'| |].
        -- simpl. apply elem_of_app. right.
           apply list_elem_of_singleton. reflexivity.
        -- reflexivity.
      * done.
    + intros [= <-] Hok'. eexists. split.
      * eapply select_listing_by_key; [exact Hok'| |].
        -- simpl. apply elem_of_app. right.
           apply list_elem_of_singleton. reflexivity.
        -- reflexivity.
      * done.
  - assert (Hobj : obj ∈ listings db ∧ listing_key obj
                     = (Item.source payload, Item.external_id payload)).
    { apply select_listing_elem. rewrite Hsel. apply elem_of_cons. by left. }
    destruct Hobj as [Hin Hkey].
    destruct (int_truthy (Item.price_rub payload)
              && negb (bool_decide (Item.price_rub payload
                                    = Listing.price_rub obj))) eqn:Hcond.
    + destruct (PyFloat.int_div _ _) as [f|]; [|done].
      intros [= <-] Hok'. eexists. split.
      * eapply select_listing_by_key; [exact Hok'| |].
        -- simpl. apply list_elem_of_fmap.
           exists obj. split; [|done]. by rewrite Z.eqb_refl.
        -- exact Hkey.
      * done.
    + intros [= <-] _. exists obj. split; [done|].
      intros Htruthy. rewrite Htruthy in Hcond. simpl in Hcond.
      by apply negb_false_iff, bool_decide_eq_true in Hcond.
Qed.

Lemma int_div_error n a e : PyFloat.int_div n a = Err e → e = OverflowError.
Proof.
  unfold PyFloat.int_div, PyFloat.of_int.
  destruct (PrimFloat.is_infinity _); [by intros [= <-]|done].
Qed.

Lemma upsert_listing_errors now payload db e :
  session_ok db →
  Jobs.upsert_listing now payload db = Err e →
  e = OverflowError ∨ (e = TypeError ∧ ¬ tag_free payload).
Proof.
  intros Hok. unfold Jobs.upsert_listing.
  destruct (select_listing_at_most_one (Item.source payload)
              (Item.external_id payload) db Hok) as [Hsel|[obj Hsel]];
    rewrite Hsel; simpl.
  - unfold Jobs.Listing_of_payload, tag_free.
    destruct (Item._is_room payload), (Item._rent_period payload);
      try (intros [= <-]; right; split; [done|by intros [??]]).
    destruct (float_truthy _ && int_truthy _); [|done].
    destruct (PyFloat.int_div _ _) as [f|e'] eqn:Hdiv; [done|].
    intros [= <-]. left. by eapply int_div_error.
  - destruct (int_truthy _ && negb _); [|done].
    destruct (PyFloat.int_div _ _) as [f|e'] eqn:Hdiv; [done|].
    intros [= <-]. left. by eapply int_div_error.
Qed.


(** X1.  The lookup before each insert keeps the store free of
    duplicates: from a session whose rows have distinct ids and distinct
    [(source, external_id)], reconciling any list of candidates ends in
    such a session again, and the lookup never finds two rows
    ([MultipleResultsFound] is never raised). *)
Theorem reconciliation_keeps_rows_unique (now : Z) (items : list Item.t)
    (db : Session) :
  session_ok db →
  match Jobs.upsert_all now items db with
  | Ok db' => session_ok db'
  | Err e => e ≠ MultipleResultsFound
  end.
Proof.
  revert db. induction items as [|item rest IH]; intros db Hok; simpl; [done|].
  destruct (Jobs.upsert_listing now item db) as [db1|e] eqn:Hup.
  - apply IH. by eapply upsert_listing_ok.
  - by destruct (upsert_listing_errors _ _ _ _ Hok Hup) as [->|[-> _]].
Qed.

Lemma reconciliation_keeps_rows_unique_witness :
  session_ok empty_session
  ∧ match Jobs.upsert_all 100
            [Examples.flat_123 (Some 50000); Examples.flat_123 (Some 55000)]
            empty_session with
    | Ok db' => session_ok db'
    | Err e => e ≠ MultipleResultsFound
    end.
Proof.
  split; [exact empty_session_ok|].
  exact (reconciliation_keeps_rows_unique 100
           [Examples.flat_123 (Some 50000); Examples.flat_123 (Some 55000)]
           empty_session empty_session_ok).
Defined.

Lemma upsert_listing_appends now payload db db' :
  Jobs.upsert_listing now payload db = Ok db' →
  (∃ snaps, price_snapshots db' = price_snapshots db ++ snaps
            ∧ (length snaps ≤ 1)%nat)
  ∧ (∃ rows, Listing.id <$> listings db'
             = (Listing.id <$> listings db) ++ rows
             ∧ (length rows ≤ 1)%nat).
Proof.
  unfold Jobs.upsert_listing.
  destruct (Db.select_listing _ _ db) as [|obj [|obj' rows]]; simpl; [| |done].
  - destruct (Jobs.Listing_of_payload payload) as [new|]; [|done].
    assert (Hadd : ∀ obj0 db0,
              Ok (Db.add_snapshot now (Listing.id (Db.add_listing now obj0 db).1)
                    (Listing.price_rub (Db.add_listing now obj0 db).1)
                    (Listing.price_per_m2 (Db.add_listing now obj0 db).1)
                    (Db.add_listing now obj0 db).2) = Ok db0 →
              (∃ snaps, price_snapshots db0 = price_snapshots db ++ snaps
                        ∧ (length snaps ≤ 1)%nat)
              ∧ (∃ rows, Listing.id <$> listings db0
                         = (Listing.id <$> listings db) ++ rows
                         ∧ (length rows ≤ 1)%nat)).
    { intros obj0 db0 [= <-]. simpl. split.
      - by eexists [_].
      - rewrite fmap_app. by eexists [_]. }
    destruct (float_truthy _ && int_truthy _).
    + destruct (PyFloat.int_div _ _) as [f|]; [|done]. apply Hadd.
    + apply Hadd.
  - destruct (int_truthy _ && negb _).
    + destruct (PyFloat.int_div _ _) as [f|]; [|done].
      intros [= <-]. simpl. split; [by eexists [_]|].
      exists []. rewrite app_nil_r. split; [|simpl; lia].
      rewrite <- list_fmap_compose. apply list_fmap_ext. intros i l _. simpl.
      by destruct (Z.eqb_spec (Listing.id l) (Listing.id obj)).
    + intros [= <-]. split; exists []; rewrite app_nil_r; (split; [done|simpl; lia]).
Qed.

(** X3.  Reconciliation only ever appends.  Reconciling [n] candidates
    leaves every snapshot written before in place and unchanged and adds at
    most [n] new ones after them; it deletes no listing, keeps the ids of
    the stored listings in place and adds at most [n] new listings. *)
Theorem reconciliation_appends (now : Z) (items : list Item.t) (db : Session) :
  match Jobs.upsert_all now items db with
  | Ok db' =>
      (∃ snaps, price_snapshots db' = price_snapshots db ++ snaps
                ∧ (length snaps ≤ length items)%nat)
      ∧ (∃ rows, Listing.id <$> listings db'
                 = (Listing.id <$> listings db) ++ rows
                 ∧ (length rows ≤ length items)%nat)
  | Err _ => True
  end.
Proof.
  revert db. induction items as [|item rest IH]; intros db; simpl.
  - split; exists []; rewrite app_nil_r; (split; [done|simpl; lia]).
  - destruct (Jobs.upsert_listing now item db) as [db1|] eqn:Hup; [|done].
    apply upsert_listing_appends in Hup
      as [(snaps1 & Hs1 & Hl1) (rows1 & Hr1 & Hn1)].
    specialize (IH db1).
    destruct (Jobs.upsert_all now rest db1) as [db'|]; [|done].
    destruct IH as [(snaps & Hs & Hl) (rows & Hr & Hn)]. split.
    + exists (snaps1 ++ snaps). rewrite Hs, Hs1, app_assoc. split; [done|].
      rewrite length_app. simpl. lia.
    + exists (rows1 ++ rows). rewrite Hr, Hr1, app_assoc. split; [done|].
      rewrite length_app. simpl. lia.
Qed.

Lemma snapshots_of_add_snapshot id now lid p q db :
  snapshots_of id (Db.add_snapshot now lid p q db)
  = snapshots_of id db
    ++ (if bool_decide (lid = id)
        then [PriceSnapshot.mk (price_snapshots_id_seq db) lid now p q]
        else []).
Proof.
  unfold snapshots_of. simpl. rewrite filter_app. f_equal.
  case_bool_decide as Hid.
  - by rewrite filter_cons_True.
  - by rewrite filter_cons_False.
Qed.

Lemma history_insert now obj db :
  session_ok db → history_ok db →
  history_ok
    (Db.add_snapshot now (Listing.id (Db.add_listing now obj db).1)
       (Listing.price_rub (Db.add_listing now obj db).1)
       (Listing.price_per_m2 (Db.add_listing now obj db).1)
       (Db.add_listing now obj db).2).
Proof.
  intros [_ Hseq _] [Hfk Hlast]. split.
  - simpl. apply Forall_app. split.
    + eapply Forall_impl; [exact Hfk|]. simpl. intros s Hs.
      rewrite fmap_app. apply elem_of_app. by left.
    + apply Forall_singleton. simpl. rewrite fmap_app. apply elem_of_app.
      right. apply list_elem_of_singleton. done.
  - simpl listings. apply Forall_app. split.
    + rewrite Forall_forall in Hseq, Hlast. apply Forall_forall.
      intros l Hl. destruct (Hlast l Hl) as (s & Hs & Hm).
      exists s. split; [|done].
      rewrite snapshots_of_add_snapshot. simpl.
      rewrite bool_decide_eq_false_2; [|specialize (Hseq l Hl); simpl in Hseq; lia].
      by rewrite app_nil_r.
    + apply Forall_singleton. eexists. split.
      * rewrite snapshots_of_add_snapshot. simpl.
        rewrite bool_decide_eq_true_2; [|done]. by rewrite last_snoc.
      * by split.
Qed.

Lemma history_update now new obj db :
  session_ok db → history_ok db →
  obj ∈ listings db → Listing.id new = Listing.id obj →
  history_ok
    (Db.add_snapshot now (Listing.id new) (Listing.price_rub new)
       (Listing.price_per_m2 new) (Db.update_listing now new db)).
Proof.
  intros [_ Hseq _] [Hfk Hlast] Hin Hid.
  assert (Hids : Listing.id
                 <$> ((fun l => if Listing.id l =? Listing.id new
                                then Listing.touch now new else l)
                      <$> listings db)
                 = Listing.id <$> listings db).
  { rewrite <- list_fmap_compose. apply list_fmap_ext. intros i l _. simpl.
    by destruct (Z.eqb_spec (Listing.id l) (Listing.id new)). }
  split.
  - simpl. rewrite Hids. apply Forall_app. split; [done|].
    apply Forall_singleton. simpl. rewrite Hid.
    by apply list_elem_of_fmap_2.
  - simpl listings. apply Forall_fmap. rewrite Forall_forall in Hlast.
    apply Forall_forall. intros l Hl. simpl.
    rewrite snapshots_of_add_snapshot.
    destruct (Z.eqb_spec (Listing.id l) (Listing.id new)) as [Heq|Hne]; simpl.
    + rewrite bool_decide_eq_true_2; [|done].
      eexists. rewrite last_snoc. split; [done|]. by split.
    + rewrite bool_decide_eq_false_2; [|done]. rewrite app_nil_r.
      apply (Hlast l Hl).
Qed.

Lemma upsert_listing_history now payload db db' :
  session_ok db → history_ok db →
  Jobs.upsert_listing now payload db = Ok db' →
  history_ok db'.
Proof.
  intros Hok Hh. unfold Jobs.upsert_listing.
  destruct (Db.select_listing _ _ db) as [|obj [|obj' rows]] eqn:Hsel; simpl;
    [| |done].
  - destruct (Jobs.Listing_of_payload payload) as [new|]; [|done].
    destruct (float_truthy _ && int_truthy _).
    + destruct (PyFloat.int_div _ _) as [f|]; [|done].
      intros [= <-].
      by apply (history_insert now (Listing.set_price_per_m2 (Some f) new)).
    + intros [= <-]. by apply (history_insert now new).
  - assert (Hin : obj ∈ listings db).
    { apply (select_listing_elem (Item.source payload)
               (Item.external_id payload)).
      rewrite Hsel. apply elem_of_cons. by left. }
    destruct (int_truthy _ && negb _); [|by intros [= <-]].
    destruct (PyFloat.int_div _ _) as [f|]; [|done].
    intros [= <-].
    by apply (history_update now
                (Listing.set_price_per_m2 (Some f)
                   (Listing.set_price_rub (Item.price_rub payload) obj)) obj).
Qed.

(** X4.  The price history keeps up with the store.  From a session
    with unique rows in which every snapshot belongs to a stored listing
    and the snapshot written last for each listing carries the listing's
    [price_rub] and [price_per_m2], every reconciliation that returns
    leaves such a session: no snapshot without its listing, no listing
    without a snapshot, and the last snapshot of a listing shows its stored
    price fields. *)
Theorem reconciliation_keeps_history (now : Z) (items : list Item.t)
    (db db' : Session) :
  session_ok db → history_ok db →
  Jobs.upsert_all now items db = Ok db' →
  history_ok db'.
Proof.
  revert db. induction items as [|item rest IH]; intros db Hok Hh; simpl.
  - by intros [= <-].
  - destruct (Jobs.upsert_listing now item db) as [db1|] eqn:Hup; [|done].
    apply IH.
    + by eapply upsert_listing_ok.
    + by eapply upsert_listing_history.
Qed.

Lemma empty_history_ok : history_ok empty_session.
Proof. split; simpl; constructor. Qed.

Lemma reconciliation_keeps_history_witness :
  session_ok empty_session ∧ history_ok empty_session
  ∧ Jobs.upsert_all 100
      [Examples.flat_123 (Some 50000); Examples.flat_123 (Some 55000)]
      empty_session
    = Jobs.upsert_all 100 [Examples.flat_123 (Some 55000)]
        Examples.session_123
  ∧ ∃ db', Jobs.upsert_all 100 [Examples.flat_123 (Some 55000)]
             Examples.session_123 = Ok db'
           ∧ history_ok db'.
Proof.
  split; [exact empty_session_ok|]. split; [exact empty_history_ok|].
  split; [reflexivity|].
  eexists. split; [reflexivity|].
  exact (reconciliation_keeps_history 100
           [Examples.flat_123 (Some 50000); Examples.flat_123 (Some 55000)]
           empty_session _ empty_session_ok empty_history_ok eq_refl).
Defined.




Lemma cian_price_per_m2_error p a e :
  Cian._price_per_m2 p a = Err e → e = OverflowError.
Proof.
  unfold Cian._price_per_m2. destruct p as [p|], a as [a|]; try done.
  destruct (_ && _); [|done].
  destruct (PyFloat.int_div p a) eqn:Hdiv; [done|].
  intros [= <-]. by eapply int_div_error.
Qed.








(** ** Fetching *)











(** ** The thresholds of the settings *)

Lemma cian_normalize_within settings out :
  Forall (item_within settings) (Cian.normalize settings out).
Proof.
  apply Forall_forall. intros it Hit. unfold Cian.normalize in Hit.
  apply cian_numeric_filter_spec in Hit as (_ & Harea & Hprice).
  split; [done|]. intros mx Hmx _.
  destruct Hprice as [Hnone|(p & mx' & Hp & Hmx' & Hle)]; [congruence|].
  exists p. split; [done|]. congruence.
Qed.

Lemma avito_normalize_within settings items :
  Forall (item_within settings) (Avito.normalize settings items).
Proof.
  unfold Avito.normalize, Avito.pop_all. apply Forall_fmap, Forall_forall.
  intros it Hit.
  apply avito_numeric_filter_spec in Hit as (_ & Harea & (p & Hp & Hle)).
  split; [done|]. intros mx Hmx Hnz. exists p. split; [done|].
  unfold Avito.price_cap in Hle. rewrite Hmx in Hle. simpl in Hle.
  by destruct (Z.eqb_spec mx 0).
Qed.

Lemma cian_normalize_keys settings out :
  NoDup (Item.key <$> Cian.normalize settings out).
Proof.
  eapply sublist_NoDup;
    [|apply fmap_sublist, (cian_normalize_sublist settings out)].
  rewrite keys_pop_all, dedup_first_occurrences.
  apply first_occurrences_NoDup.
Qed.

Lemma avito_normalize_keys settings items :
  NoDup (Item.key <$> Avito.normalize settings items).
Proof.
  eapply sublist_NoDup;
    [|apply fmap_sublist, (avito_normalize_sublist settings items)].
  rewrite keys_pop_all, dedup_first_occurrences.
  apply first_occurrences_NoDup.
Qed.

Lemma cian_collect_cards_source lib cs :
  Forall (fun it => Item.source it = "cian") (Cian.collect_cards lib cs).
Proof.
  induction cs as [|c rest IH]; simpl; [constructor|].
  destruct (Cian.card_item lib c) as [it|] eqn:Hit; [|done].
  constructor; [|done]. unfold Cian.card_item in Hit.
  destruct (Cian._price_per_m2 _ _); [|done]. by injection Hit as <-.
Qed.

Lemma avito_collect_offers_source lib offs :
  match Avito.collect_offers lib offs with
  | Ok out => Forall (fun it => Item.source it = "avito") out
  | Err _ => True
  end.
Proof.
  induction offs as [|off rest IH]; simpl; [constructor|].
  destruct (Avito.offer_item lib off) as [[it|]|] eqn:Hit; [| |done].
  - destruct (Avito.collect_offers lib rest) as [out|]; [|done].
    constructor; [|done]. unfold Avito.offer_item in Hit.
    destruct (negb _ || negb _); [done|].
    destruct (Avito._price_per_m2 _ _); [|done]. by injection Hit as <-.
  - done.
Qed.

Lemma cian_page_loop_source lib net build rate pages out w :
  Forall (fun it => Item.source it = "cian") out →
  match (Cian.page_loop lib net build rate pages out w).1 with
  | Ok items => Forall (fun it => Item.source it = "cian") items
  | Err _ => True
  end.
Proof.
  revert out w. induction pages as [|p rest IH]; intros out w Hout; simpl;
    [done|].
  destruct (Cian._fetch_page net (build p) w) as [[html|e] w1]; [|done].
  assert (Hout' : Forall (fun it => Item.source it = "cian")
                    (out ++ Cian._parse_cards lib html)).
  { apply Forall_app. split; [done|].
    eapply Forall_sublist; [apply sublist_filter|].
    apply cian_collect_cards_source. }
  destruct (_ <? 5); [done|]. by apply IH.
Qed.

Lemma avito_page_loop_source lib net base rate pages items w :
  Forall (fun it => Item.source it = "avito") items →
  match (Avito.page_loop lib net base rate pages items w).1 with
  | Ok items => Forall (fun it => Item.source it = "avito") items
  | Err _ => True
  end.
Proof.
  revert items w. induction pages as [|p rest IH]; intros items w Hitems;
    simpl; [done|].
  destruct (Avito._fetch_page net (Avito.page_url base p) w)
    as [[html|e] w1]; [|done].
  unfold Avito._parse_from_jsonld.
  pose proof (avito_collect_offers_source lib (avito_offers lib html))
    as Hparsed.
  destruct (Avito.collect_offers lib (avito_offers lib html)) as [out|];
    [|done].
  assert (Hfiltered : Forall (fun it => Item.source it = "avito")
                        (filter (fun c => PyStr.truthy (Item.url c)) out))
    by (eapply Forall_sublist; [apply sublist_filter|done]).
  assert (Hpage : Forall (fun it => Item.source it = "avito")
            (items ++ match filter (fun c => PyStr.truthy (Item.url c)) out with
                      | [] => Avito._parse_cards html
                      | _ :: _ => filter (fun c => PyStr.truthy (Item.url c)) out
                      end)).
  { apply Forall_app. split; [done|].
    by destruct (filter (fun c => PyStr.truthy (Item.url c)) out). }
  destruct (_ <? 5); [done|]. by apply IH.
Qed.

Lemma pop_dedup_source src (out : list Item.t) :
  Forall (fun it => Item.source it = src) out →
  Forall (fun it => Item.source it = src) (Item.pop_tags <$> dedup out).
Proof.
  intros Hout. apply Forall_fmap.
  eapply Forall_sublist; [apply dedup_sublist|].
  eapply Forall_impl; [exact Hout|]. by intros it.
Qed.

(** X8.  What both scrapers hand to the reconciliation.  The candidates
    that [fetch_cian] returns are of source [cian], those that
    [fetch_avito] returns of source [avito]; either way they have pairwise
    distinct [(external_id, url)], a known area of at least
    [cian_min_area_m2] and, when a maximal price other than [0] is
    configured, a known price of at most that. *)
Theorem fetch_results_are_filtered (lib : Lib) (settings : Settings)
    (net : Net) (build : Z → string) (w : World) :
  match (Cian.fetch_cian lib settings net build w).1 with
  | Ok items =>
      Forall (fun it => Item.source it = "cian") items
      ∧ NoDup (Item.key <$> items)
      ∧ Forall (item_within settings) items
  | Err _ => True
  end
  ∧ match (Avito.fetch_avito lib settings net w).1 with
    | Ok items =>
        Forall (fun it => Item.source it = "avito") items
        ∧ NoDup (Item.key <$> items)
        ∧ Forall (item_within settings) items
    | Err _ => True
    end.
Proof.
  split.
  - unfold Cian.fetch_cian.
    destruct (PyFloat.int_div _ _) as [rate|]; [|done]. unfold bind.
    pose proof (cian_page_loop_source lib net build rate
                  (seqZ 1 (Z.max 1 (cian_max_pages settings))) [] w
                  (Forall_nil_2 _)) as Hsrc.
    destruct (Cian.page_loop _ _ _ _ _ _ _) as [[out|e] w1]; [|done].
    split; [|split; [apply cian_normalize_keys|apply cian_normalize_within]].
    eapply Forall_sublist; [apply cian_normalize_sublist|].
    by apply pop_dedup_source.
  - unfold Avito.fetch_avito.
    destruct (negb _); [repeat split; constructor|].
    destruct (PyFloat.int_div _ _) as [rate|]; [|done]. unfold bind.
    pose proof (avito_page_loop_source lib net
                  (PyStr.or_empty (AVITO_SEARCH_URL settings)) rate
                  (seqZ 1 (Z.max 1 (AVITO_MAX_PAGES settings))) [] w
                  (Forall_nil_2 _)) as Hsrc.
    destruct (Avito.page_loop _ _ _ _ _ _ _) as [[out|e] w1]; [|done].
    split; [|split; [apply avito_normalize_keys|apply avito_normalize_within]].
    eapply Forall_sublist; [apply avito_normalize_sublist|].
    by apply pop_dedup_source.
Qed.

Lemma fetch_cian_within lib settings net build w :
  match (Cian.fetch_cian lib settings net build w).1 with
  | Ok items => Forall (item_within settings) items
  | Err _ => True
  end.
Proof.
  unfold Cian.fetch_cian.
  destruct (PyFloat.int_div _ _) as [rate|]; [|done]. unfold bind.
  destruct (Cian.page_loop _ _ _ _ _ _ _) as [[out|e] w1]; [|done].
  apply cian_normalize_within.
Qed.

Lemma fetch_avito_within lib settings net w :
  match (Avito.fetch_avito lib settings net w).1 with
  | Ok items => Forall (item_within settings) items
  | Err _ => True
  end.
Proof.
  unfold Avito.fetch_avito. destruct (negb _); [constructor|].
  destruct (PyFloat.int_div _ _) as [rate|]; [|done]. unfold bind.
  destruct (Avito.page_loop _ _ _ _ _ _ _) as [[out|e] w1]; [|done].
  apply avito_normalize_within.
Qed.

Lemma upsert_listing_within settings now payload db db' :
  item_within settings payload →
  Forall (row_within settings) (listings db) →
  Jobs.upsert_listing now payload db = Ok db' →
  Forall (row_within settings) (listings db').
Proof.
  intros Hitem Hrows. unfold Jobs.upsert_listing.
  destruct (Db.select_listing _ _ db) as [|obj [|obj' rows]] eqn:Hsel; simpl;
    [| |done].
  - destruct (Jobs.Listing_of_payload payload) as [new|] eqn:Hnew; [|done].
    apply Listing_of_payload_fields in Hnew as [_ ->].
    destruct (float_truthy _ && int_truthy _).
    + destruct (PyFloat.int_div _ _) as [f|]; [|done].
      intros [= <-]. simpl. apply Forall_app. split; [done|].
      by apply Forall_singleton.
    + intros [= <-]. simpl. apply Forall_app. split; [done|].
      by apply Forall_singleton.
  - assert (Hobj : row_within settings obj).
    { rewrite Forall_forall in Hrows. apply Hrows.
      apply (select_listing_elem (Item.source payload)
               (Item.external_id payload)).
      rewrite Hsel. apply elem_of_cons. by left. }
    destruct (int_truthy _ && negb _); [|by intros [= <-]].
    destruct (PyFloat.int_div _ _) as [f|]; [|done].
    intros [= <-]. simpl. apply Forall_fmap.
    eapply Forall_impl; [exact Hrows|]. intros l Hl. simpl.
    destruct (Listing.id l =? Listing.id obj); [|done].
    destruct Hobj as [Harea _], Hitem as [_ Hprice]. by split.
Qed.

Lemma upsert_all_within settings now items db db' :
  Forall (item_within settings) items →
  Forall (row_within settings) (listings db) →
  Jobs.upsert_all now items db = Ok db' →
  Forall (row_within settings) (listings db').
Proof.
  revert db. induction items as [|item rest IH]; intros db Hitems Hrows; simpl.
  - by intros [= <-].
  - apply Forall_cons in Hitems as [Hitem Hrest].
    destruct (Jobs.upsert_listing now item db) as [db1|] eqn:Hup; [|done].
    apply IH; [done|]. by eapply upsert_listing_within.
Qed.

(** X9.  The store stays within the thresholds.  When every stored
    listing has a known area of at least [cian_min_area_m2] and, with a
    maximal price other than [0] configured, a known price of at most
    that, the same holds of every listing the session holds after a run
    of the job: of the listings it inserts and of those whose price it
    updates. *)
Theorem job_scrape_city_keeps_thresholds (lib : Lib) (settings : Settings)
    (net : Net) (build : Z → string) (now : Z) (db : Session) (w : World) :
  Forall (row_within settings) (listings db) →
  match (Jobs.job_scrape_city lib settings net build now db w).1 with
  | Ok db' => Forall (row_within settings) (listings db')
  | Err _ => True
  end.
Proof.
  intros Hrows. unfold Jobs.job_scrape_city.
  pose proof (fetch_cian_within lib settings net build w) as Hcian.
  destruct (Cian.fetch_cian lib settings net build w)
    as [[cian_items|e] w1]; [|done].
  destruct (Jobs.upsert_all now cian_items db) as [db1|] eqn:Hup1; [|done].
  pose proof (fetch_avito_within lib settings net w1) as Havito.
  destruct (Avito.fetch_avito lib settings net w1)
    as [[avito_items|e] w2]; [|done].
  destruct (Jobs.upsert_all now avito_items db1) as [db2|] eqn:Hup2; [|done].
  simpl. eapply upsert_all_within; [exact Havito| |exact Hup2].
  eapply upsert_all_within; [exact Hcian|exact Hrows|exact Hup1].
Qed.

Lemma job_scrape_city_keeps_thresholds_witness :
  Forall (row_within Examples.settings) (listings empty_session)
  ∧ match (Jobs.job_scrape_city Examples.lib Examples.settings
             Examples.net_avito_forbidden Examples._build_search_url 100
             empty_session Examples.start).1 with
    | Ok db' => Forall (row_within Examples.settings) (listings db')
    | Err _ => True
    end.
Proof.
  split; [apply Forall_nil_2|].
  exact (job_scrape_city_keeps_thresholds Examples.lib Examples.settings
           Examples.net_avito_forbidden Examples._build_search_url 100
           empty_session Examples.start (Forall_nil_2 _)).
Defined.

(** ** Which pages are requested *)







(** ** Where the pagination ends *)

(** X11.  A short first page ends the pagination.  When the first page
    is fetched and holds fewer than five cards, [fetch_cian] returns the
    filtered cards of that page and has done nothing but fetch it: no
    further page is requested and the rate-limit sleep is not taken,
    however many pages are configured.  The same holds of [fetch_avito]
    and the offers of its first page. *)
Theorem fetch_short_first_page (lib : Lib) (settings : Settings) (net : Net)
    (build : Z → string) (w : World) :
  (∀ rate html w1,
     PyFloat.int_div (cian_rate_limit_ms settings) 1000%float = Ok rate →
     Cian._fetch_page net (build 1) w = (Ok html, w1) →
     (length (Cian._parse_cards lib html) < 5)%nat →
     Cian.fetch_cian lib settings net build w
     = (Ok (Cian.normalize settings (Cian._parse_cards lib html)), w1))
  ∧ (∀ rate base html parsed w1,
       AVITO_SEARCH_URL settings = Some base → base ≠ "" →
       PyFloat.int_div (AVITO_RATE_LIMIT_MS settings) 1000%float = Ok rate →
       Avito._fetch_page net base w = (Ok html, w1) →
       Avito._parse_from_jsonld lib html = Ok parsed →
       (length parsed < 5)%nat →
       Avito.fetch_avito lib settings net w
       = (Ok (Avito.normalize settings parsed), w1)).
Proof.
  split.
  - intros rate html w1 Hrate Hpage Hshort. unfold Cian.fetch_cian.
    rewrite Hrate, range_from_1. unfold bind. simpl. rewrite Hpage.
    destruct (Z.ltb_spec (Z.of_nat (length (Cian._parse_cards lib html))) 5);
      [done|lia].
  - intros rate base html parsed w1 Hbase Hne Hrate Hpage Hparsed Hshort.
    unfold Avito.fetch_avito. rewrite Hbase.
    destruct base as [|c base']; [done|]. simpl negb. cbv iota.
    rewrite Hrate, range_from_1. unfold bind. simpl.
    change (Avito.page_url (String c base') 1) with (String c base').
    rewrite Hpage, Hparsed.
    assert (Hitems : match parsed with
                     | [] => Avito._parse_cards html
                     | _ :: _ => parsed
                     end = parsed) by (by destruct parsed).
    rewrite Hitems.
    destruct (Z.ltb_spec (Z.of_nat (length parsed)) 5); [done|lia].
Qed.

Lemma fetch_short_first_page_witness :
  Cian.fetch_cian Examples.lib Examples.settings Examples.net_avito_forbidden
    Examples._build_search_url Examples.start
  = (Ok (Cian.normalize Examples.settings
           (Cian._parse_cards Examples.lib Examples.cian_page)),
     {| requests := 1; trace := [EvGet (Examples._build_search_url 1)] |})
  ∧ ∃ parsed,
      Avito._parse_from_jsonld Examples.lib Examples.avito_page = Ok parsed
      ∧ Avito.fetch_avito Examples.lib Examples.settings
          Examples.net_cian_forbidden Examples.start
        = (Ok (Avito.normalize Examples.settings parsed),
           {| requests := 1;
              trace := [EvGet "https://www.avito.ru/sankt-peterburg/kvartiry/sdam?s=104"] |}).
Proof.
  split.
  - apply (proj1 (fetch_short_first_page Examples.lib Examples.settings
                    Examples.net_avito_forbidden Examples._build_search_url
                    Examples.start)
             (PrimFloat.div (PyFloat.round_int 1200) 1000)).
    + vm_compute. reflexivity.
    + vm_compute. reflexivity.
    + vm_compute. lia.
  - destruct (Avito._parse_from_jsonld Examples.lib Examples.avito_page)
      as [parsed|e] eqn:Hparsed; [|vm_compute in Hparsed; discriminate].
    exists parsed. split; [reflexivity|].
    apply (proj2 (fetch_short_first_page Examples.lib Examples.settings
                    Examples.net_cian_forbidden Examples._build_search_url
                    Examples.start)
             (PrimFloat.div (PyFloat.round_int 1500) 1000)
             "https://www.avito.ru/sankt-peterburg/kvartiry/sdam?s=104"
             Examples.avito_page).
    + reflexivity.
    + discriminate.
    + vm_compute. reflexivity.
    + vm_compute. reflexivity.
    + exact Hparsed.
    + vm_compute in Hparsed. injection Hparsed as <-. simpl. lia.
Defined.

(** ** The urls of the pages *)

Lemma append_assoc (a b c : string) :
  ((a ++ b) ++ c = a ++ (b ++ c))%string.
Proof.
  induction a as [|x a IH]; [done|].
  change (String x ((a ++ b) ++ c) = String x (a ++ (b ++ c)))%string.
  by rewrite IH.
Qed.

Lemma append_nil_r (a : string) : (a ++ "")%string = a.
Proof.
  induction a as [|x a IH]; [done|].
  change (String x (a ++ "") = String x a)%string. by rewrite IH.
Qed.

Lemma append_length (a b : string) :
  String.length (a ++ b)%string = (String.length a + String.length b)%nat.
Proof.
  induction a as [|x a IH]; [done|].
  change (S (String.length (a ++ b)%string)
          = S (String.length a + String.length b)).
  by rewrite IH.
Qed.

Lemma append_inj_tail (a b s : string) :
  (a ++ s = b ++ s)%string → a = b.
Proof.
  revert b. induction a as [|x a IH]; intros [|y b] Heq; [done| | |].
  - apply (f_equal String.length) in Heq.
    rewrite !append_length in Heq. simpl in Heq. lia.
  - apply (f_equal String.length) in Heq.
    rewrite !append_length in Heq. simpl in Heq. lia.
  - change (String x (a ++ s) = String y (b ++ s))%string in Heq.
    injection Heq as -> Heq. f_equal. by apply IH.
Qed.

Lemma cian_search_url_shape isdigit settings search :
  ∃ front back,
    ∀ p, CianSearch._build_search_url isdigit settings search p
         = (front ++ pretty p ++ back)%string.
Proof.
  unfold CianSearch._build_search_url, CianSearch.params.
  destruct (omap (CianSearch.room_flag isdigit) (cian_rooms search))
    as [|flag flags].
  - eexists
      ("https://www.cian.ru/cat.php?deal_type="
       ++ cian_deal_type settings ++ "&engine_version=2&offer_type="
       ++ cian_offer_type search ++ "&region="
       ++ pretty (cian_region_id search) ++ "&p=")%string, "".
    intros p. simpl. by rewrite append_nil_r, !append_assoc.
  - eexists
      ("https://www.cian.ru/cat.php?deal_type="
       ++ cian_deal_type settings ++ "&engine_version=2&offer_type="
       ++ cian_offer_type search ++ "&region="
       ++ pretty (cian_region_id search) ++ "&p=")%string,
      ("&" ++ CianSearch.join "&" (flag :: flags))%string.
    intros p. simpl. by rewrite !append_assoc.
Qed.

Lemma default_search_url isdigit p :
  isdigit "1" = true → isdigit "2" = true →
  CianSearch._build_search_url isdigit Examples.settings default_search p
  = Examples._build_search_url p.
Proof.
  intros H1 H2.
  unfold CianSearch._build_search_url, Examples._build_search_url,
    CianSearch.params.
  simpl. unfold CianSearch.room_flag, CianSearch.room_key. simpl.
  rewrite H1, H2. simpl. by rewrite !append_assoc.
Qed.

(** X12.  Every page has a url of its own.  The search url that
    [_build_search_url] builds for cian determines the page number: two
    pages with the same url are the same page, whatever the settings and
    the rooms are.  So does the page url of [fetch_avito], the configured
    url itself for page 1 and the url followed by [&p=<p>] for the
    others. *)
Theorem page_urls_are_distinct (isdigit : string → bool) (settings : Settings)
    (search : SearchSettings) (base : string) (p q : Z) :
  (CianSearch._build_search_url isdigit settings search p
   = CianSearch._build_search_url isdigit settings search q → p = q)
  ∧ (Avito.page_url base p = Avito.page_url base q → p = q).
Proof.
  split.
  - destruct (cian_search_url_shape isdigit settings search)
      as (front & back & Hshape).
    rewrite !Hshape. intros Heq.
    apply String.app_inj in Heq. apply append_inj_tail in Heq.
    by apply pretty_Z_inj.
  - unfold Avito.page_url.
    destruct (Z.eqb_spec p 1) as [->|Hp], (Z.eqb_spec q 1) as [->|Hq];
      [done| | |].
    + intros Heq. apply (f_equal String.length) in Heq.
      rewrite !append_length in Heq. simpl in Heq. lia.
    + intros Heq. apply (f_equal String.length) in Heq.
      rewrite !append_length in Heq. simpl in Heq. lia.
    + intros Heq. do 2 apply String.app_inj in Heq.
      by apply pretty_Z_inj.
Qed.

(** ** A second pass, and what a pass leaves alone *)

Lemma same_id_same_row db obj l :
  session_ok db → obj ∈ listings db → l ∈ listings db →
  Listing.id l = Listing.id obj → l = obj.
Proof.
  intros [Hids _ _] Hin Hl Hid.
  apply list_elem_of_lookup in Hl as [j Hj], Hin as [k Hk].
  assert (j = k) as ->; [|congruence].
  eapply NoDup_lookup; [exact Hids| |];
    rewrite list_lookup_fmap; [by rewrite Hj|by rewrite Hk, Hid].
Qed.

Lemma filter_update_row (P : Listing.t → Prop) `{∀ x, Decision (P x)}
    (ls : list Listing.t) (obj new : Listing.t) :
  (∀ l, l ∈ ls → Listing.id l = Listing.id obj → l = obj) →
  ¬ P obj → ¬ P new →
  filter P ((fun l => if Listing.id l =? Listing.id obj then new else l)
            <$> ls)
  = filter P ls.
Proof.
  intros Hsame Hobj Hnew. induction ls as [|l ls IH]; [done|].
  rewrite fmap_cons.
  assert (IH' : filter P ((fun l => if Listing.id l =? Listing.id obj
                                    then new else l) <$> ls)
                = filter P ls).
  { apply IH. intros l' Hl'. apply Hsame. apply elem_of_cons. by right. }
  destruct (Z.eqb_spec (Listing.id l) (Listing.id obj)) as [Heq|Hne].
  - assert (l = obj) as ->
      by (apply Hsame; [apply elem_of_cons; by left|done]).
    by rewrite !filter_cons_False.
  - destruct (decide (P l)).
    + rewrite !filter_cons_True by done. by rewrite IH'.
    + rewrite !filter_cons_False by done. by rewrite IH'.
Qed.

Lemma select_other_key now payload db db' src ext :
  session_ok db →
  Jobs.upsert_listing now payload db = Ok db' →
  (src, ext) ≠ payload_key payload →
  Db.select_listing src ext db' = Db.select_listing src ext db.
Proof.
  intros Hok Hup Hkey. revert Hup. unfold Jobs.upsert_listing.
  destruct (Db.select_listing (Item.source payload) _ db)
    as [|obj [|obj' rows]] eqn:Hsel; simpl; [| |done].
  - destruct (Jobs.Listing_of_payload payload) as [new|] eqn:Hnew; [|done].
    apply Listing_of_payload_fields in Hnew as [_ ->].
    assert (Hadd : ∀ row,
              Listing.source row = Item.source payload →
              Listing.external_id row = Item.external_id payload →
              filter (fun l => Listing.source l = src
                               ∧ Listing.external_id l = ext)
                     (listings db ++ [row])
              = Db.select_listing src ext db).
    { intros row Hs He. rewrite filter_app, filter_cons_False.
      - by rewrite filter_nil, app_nil_r.
      - intros [Hs' He']. apply Hkey. unfold payload_key. congruence. }
    destruct (float_truthy _ && int_truthy _).
    + destruct (PyFloat.int_div _ _) as [f|]; [|done].
      intros [= <-]. unfold Db.select_listing at 1. simpl. by apply Hadd.
    + intros [= <-]. unfold Db.select_listing at 1. simpl. by apply Hadd.
  - assert (Hobj : obj ∈ listings db ∧ listing_key obj = payload_key payload).
    { apply (select_listing_elem (Item.source payload)
               (Item.external_id payload)).
      rewrite Hsel. apply elem_of_cons. by left. }
    destruct Hobj as [Hin Hobj_key].
    destruct (int_truthy _ && negb _); [|by intros [= <-]].
    destruct (PyFloat.int_div _ _) as [f|]; [|done].
    intros [= <-]. unfold Db.select_listing. simpl.
    apply (filter_update_row _ (listings db) obj).
    + intros l Hl Hid. by eapply same_id_same_row.
    + intros [Hs He]. apply Hkey. rewrite <- Hobj_key. unfold listing_key.
      congruence.
    + simpl. intros [Hs He]. apply Hkey. rewrite <- Hobj_key.
      unfold listing_key. congruence.
Qed.

Lemma upsert_listing_settles now payload db db' :
  session_ok db →
  Jobs.upsert_listing now payload db = Ok db' →
  settled payload db'.
Proof. apply upsert_listing_select_after. Qed.

Lemma settled_noop now it db :
  settled it db → Jobs.upsert_listing now it db = Ok db.
Proof.
  intros (row & Hsel & Hp). unfold Jobs.upsert_listing. rewrite Hsel. simpl.
  destruct (int_truthy (Item.price_rub it)) eqn:Htruthy; [|done].
  rewrite (Hp eq_refl). by rewrite bool_decide_eq_true_2.
Qed.

Lemma settled_preserved now it it' db db' :
  session_ok db →
  payload_key it ≠ payload_key it' →
  settled it db →
  Jobs.upsert_listing now it' db = Ok db' →
  settled it db'.
Proof.
  intros Hok Hkey (row & Hsel & Hp) Hup. exists row. split; [|done].
  by rewrite (select_other_key now it' db db' _ _ Hok Hup Hkey).
Qed.

Lemma settled_preserved_all now it items db db' :
  session_ok db →
  Forall (fun it' => payload_key it ≠ payload_key it') items →
  settled it db →
  Jobs.upsert_all now items db = Ok db' →
  settled it db'.
Proof.
  revert db. induction items as [|it' rest IH]; intros db Hok Hkeys Hset;
    simpl.
  - by intros [= <-].
  - apply Forall_cons in Hkeys as [Hkey Hrest].
    destruct (Jobs.upsert_listing now it' db) as [db1|] eqn:Hup; [|done].
    apply IH; [by eapply upsert_listing_ok|done|].
    by eapply settled_preserved.
Qed.

Lemma upsert_all_settles now items db db' :
  session_ok db →
  NoDup (payload_key <$> items) →
  Jobs.upsert_all now items db = Ok db' →
  Forall (fun it => settled it db') items.
Proof.
  revert db. induction items as [|it rest IH]; intros db Hok Hnd; simpl.
  - intros _. constructor.
  - rewrite fmap_cons in Hnd. apply NoDup_cons in Hnd as [Hfresh Hnd].
    destruct (Jobs.upsert_listing now it db) as [db1|] eqn:Hup; [|done].
    intros Hall.
    assert (Hok1 : session_ok db1) by (by eapply upsert_listing_ok).
    constructor; [|by eapply IH].
    eapply settled_preserved_all;
      [exact Hok1| |exact (upsert_listing_settles now it db db1 Hok Hup)
      |exact Hall].
    apply Forall_forall. intros it' Hit' Heq. apply Hfresh. rewrite Heq.
    by apply list_elem_of_fmap_2.
Qed.

Lemma settled_all_noop now items db :
  Forall (fun it => settled it db) items →
  Jobs.upsert_all now items db = Ok db.
Proof.
  induction 1 as [|it rest Hit _ IH]; [done|].
  simpl. by rewrite (settled_noop now it db Hit).
Qed.

(** X2.  A second pass over the same candidates changes nothing.  When
    the candidates have pairwise distinct [(source, external_id)] and a
    pass over them has returned, a further pass over the same candidates
    returns the session as it is: no row is inserted or updated and no
    snapshot is written. *)
Theorem reconciliation_twice (now now' : Z) (items : list Item.t)
    (db db' : Session) :
  session_ok db →
  NoDup (payload_key <$> items) →
  Jobs.upsert_all now items db = Ok db' →
  Jobs.upsert_all now' items db' = Ok db'.
Proof.
  intros Hok Hnd Hall. apply settled_all_noop.
  by eapply upsert_all_settles.
Qed.

Lemma reconciliation_twice_witness :
  session_ok empty_session
  ∧ NoDup (payload_key
           <$> [Examples.flat_123 (Some 50000);
                Item.pop_tags Examples.unknown_flat])
  ∧ match Jobs.upsert_all 100
            [Examples.flat_123 (Some 50000);
             Item.pop_tags Examples.unknown_flat] empty_session with
    | Ok db' =>
        length (listings db') = 2%nat
        ∧ Jobs.upsert_all 200
            [Examples.flat_123 (Some 50000);
             Item.pop_tags Examples.unknown_flat] db' = Ok db'
    | Err _ => False
    end.
Proof.
  assert (Hnd : NoDup (payload_key
                       <$> [Examples.flat_123 (Some 50000);
                            Item.pop_tags Examples.unknown_flat])).
  { apply NoDup_cons. split; [|apply NoDup_singleton].
    intros Hin. apply list_elem_of_singleton in Hin. discriminate Hin. }
  split; [exact empty_session_ok|]. split; [exact Hnd|].
  destruct (Jobs.upsert_all 100
              [Examples.flat_123 (Some 50000);
               Item.pop_tags Examples.unknown_flat] empty_session)
    as [db'|e] eqn:Hall; [|vm_compute in Hall; discriminate Hall].
  split.
  - vm_compute in Hall. by injection Hall as <-.
  - exact (reconciliation_twice 100 200 _ empty_session db'
             empty_session_ok Hnd Hall).
Defined.

(** Without distinct keys a second pass does write: two candidates for
    the same listing with different prices each update it in turn. *)
Lemma reconciliation_twice_same_key :
  match Jobs.upsert_all 100
          [Examples.flat_123 (Some 50000); Examples.flat_123 (Some 55000)]
          empty_session with
  | Ok db' =>
      match Jobs.upsert_all 200
              [Examples.flat_123 (Some 50000); Examples.flat_123 (Some 55000)]
              db' with
      | Ok db2 => (length (price_snapshots db'), length (price_snapshots db2))
      | Err _ => (0%nat, 0%nat)
      end
  | Err _ => (0%nat, 0%nat)
  end = (2%nat, 4%nat).
Proof. vm_compute. reflexivity. Qed.

Lemma upsert_listing_stable now payload db db' :
  session_ok db →
  Jobs.upsert_listing now payload db = Ok db' →
  (stable_part <$> listings db) `prefix_of` (stable_part <$> listings db').
Proof.
  intros Hok. unfold Jobs.upsert_listing.
  destruct (Db.select_listing _ _ db) as [|obj [|obj' rows]] eqn:Hsel; simpl;
    [| |done].
  - destruct (Jobs.Listing_of_payload payload) as [new|]; [|done].
    destruct (float_truthy _ && int_truthy _).
    + destruct (PyFloat.int_div _ _) as [f|]; [|done].
      intros [= <-]. simpl. rewrite fmap_app. by eexists.
    + intros [= <-]. simpl. rewrite fmap_app. by eexists.
  - assert (Hin : obj ∈ listings db).
    { apply (select_listing_elem (Item.source payload)
               (Item.external_id payload)).
      rewrite Hsel. apply elem_of_cons. by left. }
    destruct (int_truthy _ && negb _); [|by intros [= <-]].
    destruct (PyFloat.int_div _ _) as [f|]; [|done].
    intros [= <-]. simpl. exists []. rewrite app_nil_r.
    rewrite <- list_fmap_compose. apply list_fmap_ext. intros i l Hl. simpl.
    destruct (Z.eqb_spec (Listing.id l) (Listing.id obj)) as [Heq|]; [|done].
    assert (l = obj) as ->; [|done].
    eapply same_id_same_row; [exact Hok|exact Hin| |exact Heq].
    by eapply list_elem_of_lookup_2.
Qed.

(** X13.  A pass changes prices only.  Every listing stored before a
    reconciliation is still stored after it, at the same place and with
    all its attributes but [price_rub], [price_per_m2] and [updated_at]
    as they were, whatever the candidates say about them; the listings
    that are new come after the old ones. *)
Theorem reconciliation_changes_prices_only (now : Z) (items : list Item.t)
    (db db' : Session) :
  session_ok db →
  Jobs.upsert_all now items db = Ok db' →
  (stable_part <$> listings db) `prefix_of` (stable_part <$> listings db').
Proof.
  revert db. induction items as [|item rest IH]; intros db Hok; simpl.
  - by intros [= <-].
  - destruct (Jobs.upsert_listing now item db) as [db1|] eqn:Hup; [|done].
    intros Hall. etrans; [by eapply upsert_listing_stable|].
    eapply IH; [|exact Hall]. by eapply upsert_listing_ok.
Qed.

Lemma upsert_listing_other_sources now src payload db db' :
  session_ok db →
  Item.source payload = src →
  Jobs.upsert_listing now payload db = Ok db' →
  filter (fun l => Listing.source l ≠ src) (listings db')
  = filter (fun l => Listing.source l ≠ src) (listings db).
Proof.
  intros Hok Hsrc. unfold Jobs.upsert_listing.
  destruct (Db.select_listing _ _ db) as [|obj [|obj' rows]] eqn:Hsel; simpl;
    [| |done].
  - destruct (Jobs.Listing_of_payload payload) as [new|] eqn:Hnew; [|done].
    apply Listing_of_payload_fields in Hnew as [_ ->].
    destruct (float_truthy _ && int_truthy _).
    + destruct (PyFloat.int_div _ _) as [f|]; [|done].
      intros [= <-]. simpl. rewrite filter_app, filter_cons_False.
      * by rewrite filter_nil, app_nil_r.
      * simpl. by intros [].
    + intros [= <-]. simpl. rewrite filter_app, filter_cons_False.
      * by rewrite filter_nil, app_nil_r.
      * simpl. by intros [].
  - assert (Hobj : obj ∈ listings db
                   ∧ listing_key obj
                     = (Item.source payload, Item.external_id payload)).
    { apply (select_listing_elem (Item.source payload)
               (Item.external_id payload)).
      rewrite Hsel. apply elem_of_cons. by left. }
    destruct Hobj as [Hin [= Hobj_src _]].
    destruct (int_truthy _ && negb _); [|by intros [= <-]].
    destruct (PyFloat.int_div _ _) as [f|]; [|done].
    intros [= <-]. simpl.
    apply (filter_update_row _ (listings db) obj).
    + intros l Hl Hid. by eapply same_id_same_row.
    + intros Hne. apply Hne. congruence.
    + simpl. intros Hne. apply Hne. congruence.
Qed.

(** X14.  The sources do not touch each other's listings.  A pass over
    candidates that are all of one source leaves every stored listing of
    any other source exactly as it was, prices and [updated_at]
    included, and adds no listing of another source. *)
Theorem reconciliation_keeps_other_sources (now : Z) (src : string)
    (items : list Item.t) (db db' : Session) :
  session_ok db →
  Forall (fun it => Item.source it = src) items →
  Jobs.upsert_all now items db = Ok db' →
  filter (fun l => Listing.source l ≠ src) (listings db')
  = filter (fun l => Listing.source l ≠ src) (listings db).
Proof.
  revert db. induction items as [|item rest IH]; intros db Hok Hsrc; simpl.
  - by intros [= <-].
  - apply Forall_cons in Hsrc as [Hitem Hrest].
    destruct (Jobs.upsert_listing now item db) as [db1|] eqn:Hup; [|done].
    intros Hall.
    rewrite (IH db1 (upsert_listing_ok _ _ _ _ Hok Hup) Hrest Hall).
    by eapply upsert_listing_other_sources.
Qed.

Lemma reconciliation_keeps_other_sources_witness :
  session_ok Examples.session_123
  ∧ Forall (fun it => Item.source it = "avito") [avito_studio]
  ∧ match Jobs.upsert_all 300 [avito_studio] Examples.session_123 with
    | Ok db' =>
        length (listings db') = 2%nat
        ∧ filter (fun l => Listing.source l ≠ "avito") (listings db')
          = filter (fun l => Listing.source l ≠ "avito")
              (listings Examples.session_123)
    | Err _ => False
    end.
Proof.
  assert (Hsrc : Forall (fun it => Item.source it = "avito") [avito_studio])
    by (by apply Forall_singleton).
  split; [exact session_123_ok|]. split; [exact Hsrc|].
  destruct (Jobs.upsert_all 300 [avito_studio] Examples.session_123)
    as [db'|e] eqn:Hall; [|vm_compute in Hall; discriminate Hall].
  split.
  - vm_compute in Hall. by injection Hall as <-.
  - exact (reconciliation_keeps_other_sources 300 "avito" [avito_studio]
             Examples.session_123 db' session_123_ok Hsrc Hall).
Defined.

Lemma reconciliation_changes_prices_only_witness :
  session_ok Examples.session_123
  ∧ match Jobs.upsert_all 200 [Examples.flat_123 (Some 55000)]
            Examples.session_123 with
    | Ok db' =>
        Listing.price_rub <$> listings db' = [Some 55000]
        ∧ (stable_part <$> listings Examples.session_123)
          `prefix_of` (stable_part <$> listings db')
    | Err _ => False
    end.
Proof.
  split; [exact session_123_ok|].
  destruct (Jobs.upsert_all 200 [Examples.flat_123 (Some 55000)]
              Examples.session_123)
    as [db'|e] eqn:Hall; [|vm_compute in Hall; discriminate Hall].
  split.
  - vm_compute in Hall. by injection Hall as <-.
  - exact (reconciliation_changes_prices_only 200
             [Examples.flat_123 (Some 55000)] Examples.session_123 db'
             session_123_ok Hall).
Defined.

(** ** A run without Avito *)

(** X15.  With [AVITO_SEARCH_URL] unset or empty the job is the Cian pass
    alone: [fetch_avito] returns no candidate, makes no request and takes
    no sleep, whatever the other settings are, and the run ends as the
    reconciliation of the Cian candidates ends. *)
Theorem job_without_avito_url (lib : Lib) (settings : Settings) (net : Net)
    (build : Z → string) (now : Z) (db : Session) (w : World) :
  PyStr.truthy (AVITO_SEARCH_URL settings) = false →
  Avito.fetch_avito lib settings net w = (Ok [], w)
  ∧ Jobs.job_scrape_city lib settings net build now db w
    = match Cian.fetch_cian lib settings net build w with
      | (Ok cian_items, w1) => (Jobs.upsert_all now cian_items db, w1)
      | (Err e, w1) => (Err e, w1)
      end.
Proof.
  intros Hurl.
  assert (Havito : ∀ w0, Avito.fetch_avito lib settings net w0 = (Ok [], w0)).
  { intros w0. unfold Avito.fetch_avito. by rewrite Hurl. }
  split; [apply Havito|]. unfold Jobs.job_scrape_city.
  destruct (Cian.fetch_cian lib settings net build w)
    as [[cian_items|e] w1]; [|done].
  destruct (Jobs.upsert_all now cian_items db) as [db1|e]; [|done].
  by rewrite Havito.
Qed.

Lemma job_without_avito_url_witness :
  PyStr.truthy (AVITO_SEARCH_URL settings_without_avito) = false
  ∧ Avito.fetch_avito Examples.lib settings_without_avito
      Examples.net_avito_forbidden Examples.start
    = (Ok [], Examples.start)
  ∧ Jobs.job_scrape_city Examples.lib settings_without_avito
      Examples.net_avito_forbidden Examples._build_search_url 100
      empty_session Examples.start
    = match Cian.fetch_cian Examples.lib settings_without_avito
              Examples.net_avito_forbidden Examples._build_search_url
              Examples.start with
      | (Ok cian_items, w1) =>
          (Jobs.upsert_all 100 cian_items empty_session, w1)
      | (Err e, w1) => (Err e, w1)
      end.
Proof.
  split; [reflexivity|].
  exact (job_without_avito_url Examples.lib settings_without_avito
           Examples.net_avito_forbidden Examples._build_search_url 100
           empty_session Examples.start eq_refl).
Defined.
